(** * Subscription service: domain logic, persistence gateway and request boundary

    A shallow embedding of the Go packages [service], [repository] and
    [handler] of the subscription service, with the properties of the
    specification proved over it.

    What is modelled and how:
    - [time.Time] is the instant in whole seconds since 1970-01-01T00:00:00Z;
      every instant the program builds has zero nanoseconds and is in UTC.
    - Go [error] values are the inductive type [error]; [fmt.Errorf] with
      [%w] is [wrapError], and [errors.Is] walks the chain of wrapped errors.
    - A function returning [(T, error)] returns [result T].
    - The database behind GORM is a list of rows together with an oracle
      telling, statement by statement, whether the driver fails.
    - Logging is not modelled: no logger call changes a result. *)

From Stdlib Require Import ZArith List String Ascii Bool Lia.
Import ListNotations.
Local Open Scope string_scope.
Local Open Scope list_scope.
Local Open Scope Z_scope.

(** ** Errors *)

Inductive error : Type :=
| ParseError (layout value : string)     (* *time.ParseError *)
| errorString (s : string)               (* errors.New(s) *)
| ErrRecordNotFound                      (* gorm.ErrRecordNotFound *)
| driverError (msg : string)             (* any error of the database driver *)
| wrapError (msg : string) (err : error) (* fmt.Errorf(msg + ": %w", err) *).

Inductive result (A : Type) : Type :=
| Ok (a : A)
| Err (e : error).
Arguments Ok {A} a.
Arguments Err {A} e.

Definition error_eqb_head (e target : error) : bool :=
  match e, target with
  | ParseError l v, ParseError l' v' => String.eqb l l' && String.eqb v v'
  | errorString s, errorString s' => String.eqb s s'
  | ErrRecordNotFound, ErrRecordNotFound => true
  | driverError m, driverError m' => String.eqb m m'
  | _, _ => false
  end.

(** [errors.Is(err, target)] for the targets this program uses (errors that
    wrap nothing): [err] or an error it wraps is the target. *)
Fixpoint errors_Is (err target : error) : bool :=
  match err with
  | wrapError _ inner => errors_Is inner target
  | _ => error_eqb_head err target
  end.

(** ** Package time *)

Module time.

Definition Time : Type := Z.

Definition isLeap (year : Z) : bool :=
  (year mod 4 =? 0) && (negb (year mod 100 =? 0) || (year mod 400 =? 0)).

(** Days before the first of [month] in a year that is not leap. *)
Definition daysBefore (month : Z) : Z :=
  match month with
  | 1 => 0 | 2 => 31 | 3 => 59 | 4 => 90 | 5 => 120 | 6 => 151
  | 7 => 181 | 8 => 212 | 9 => 243 | 10 => 273 | 11 => 304 | 12 => 334
  | _ => 365
  end.

Definition daysIn (month year : Z) : Z :=
  if (month =? 2) && isLeap year then 29
  else daysBefore (month + 1) - daysBefore month.

(** Leap years among the years 1 .. year-1 (proleptic Gregorian). *)
Definition leapsBefore (year : Z) : Z :=
  (year - 1) / 4 - (year - 1) / 100 + (year - 1) / 400.

(** Days from 1970-01-01 to the first of January of [year]. *)
Definition daysSinceEpoch (year : Z) : Z :=
  365 * (year - 1970) + (leapsBefore year - leapsBefore 1970).

(** [norm hi lo base]: carry [lo] into [hi] until [0 <= lo < base]. *)
Definition norm (hi lo base : Z) : Z * Z := (hi + lo / base, lo mod base).

(** [time.Date(year, month, day, hour, min, sec, 0, time.UTC)]. The month
    is normalised into the year; days, hours, minutes and seconds out of
    range carry over by the arithmetic itself. *)
Definition Date (year month day hour min sec : Z) : Time :=
  let '(year, m) := norm year (month - 1) 12 in
  let month := m + 1 in
  let d := daysSinceEpoch year + daysBefore month
           + (if isLeap year && (3 <=? month) then 1 else 0)
           + (day - 1) in
  d * 86400 + hour * 3600 + min * 60 + sec.

(** The civil date of an instant: year and month of the day the instant
    falls in, computed from the day number over 400-year eras that start
    on the first of March. *)
Definition civil (t : Time) : Z * Z * Z :=
  let z := t / 86400 + 719468 in
  let era := z / 146097 in
  let doe := z - era * 146097 in
  let yoe := (doe - doe / 1460 + doe / 36524 - doe / 146096) / 365 in
  let doy := doe - (365 * yoe + yoe / 4 - yoe / 100) in
  let mp := (5 * doy + 2) / 153 in
  let d := doy - (153 * mp + 2) / 5 + 1 in
  let m := if mp <? 10 then mp + 3 else mp - 9 in
  let y := yoe + era * 400 + (if m <=? 2 then 1 else 0) in
  (y, m, d).

Definition Year (t : Time) : Z := fst (fst (civil t)).
Definition Month (t : Time) : Z := snd (fst (civil t)).

Definition Before (t u : Time) : bool := t <? u.

Definition isDigit (c : ascii) : bool :=
  (48 <=? Z.of_nat (nat_of_ascii c)) && (Z.of_nat (nat_of_ascii c) <=? 57).

Definition digit (c : ascii) : Z := Z.of_nat (nat_of_ascii c) - 48.

(** [time.Parse("01-2006", value)]: a two-digit month in 01..12, a dash,
    a year of four digits and nothing after it. The day is the first and
    the time of day 00:00:00 UTC. *)
Definition Parse_01_2006 (value : string) : result Time :=
  let bad := Err (ParseError "01-2006" value) in
  match value with
  | String m1 (String m2 (String dash
      (String y1 (String y2 (String y3 (String y4 EmptyString)))))) =>
      if isDigit m1 && isDigit m2 && Ascii.eqb dash "-"%char
         && isDigit y1 && isDigit y2 && isDigit y3 && isDigit y4
      then
        let month := digit m1 * 10 + digit m2 in
        let year := digit y1 * 1000 + digit y2 * 100 + digit y3 * 10 + digit y4 in
        if (1 <=? month) && (month <=? 12)
        then Ok (Date year month 1 0 0 0)
        else bad
      else bad
  | _ => bad
  end.

End time.

(** ** Package uuid (github.com/google/uuid) *)

Module uuid.

(** A UUID is 16 bytes; it is modelled by the number they spell, most
    significant byte first. *)
Definition UUID : Type := N.

Definition Nil : UUID := 0%N.

Definition eqb (a b : UUID) : bool := N.eqb a b.

Definition xvalue (c : ascii) : option N :=
  let n := N.of_nat (nat_of_ascii c) in
  if ((48 <=? n) && (n <=? 57))%N then Some (n - 48)%N
  else if ((97 <=? n) && (n <=? 102))%N then Some (n - 87)%N
  else if ((65 <=? n) && (n <=? 70))%N then Some (n - 55)%N
  else None.

(** [xtob]: the byte spelled by two hexadecimal digits. *)
Definition xtob (x1 x2 : ascii) : option N :=
  match xvalue x1, xvalue x2 with
  | Some a, Some b => Some (a * 16 + b)%N
  | _, _ => None
  end.

Definition byteAt (s : list ascii) (i : nat) : ascii := nth i s zero.

(** Decodes the bytes at the given offsets in order and stops at the
    first that is not hexadecimal; the bytes decoded so far stay in the
    array, the others are zero. *)
Fixpoint decode (s : list ascii) (offsets : list nat) (left : nat) (acc : N)
  : UUID * bool :=
  match offsets with
  | [] => (acc, true)
  | x :: rest =>
      match xtob (byteAt s x) (byteAt s (S x)) with
      | Some v => decode s rest (pred left) (acc + v * 256 ^ N.of_nat (pred left))%N
      | None => (acc, false)
      end
  end.

Definition lower (c : ascii) : ascii :=
  let n := nat_of_ascii c in
  if ((65 <=? n) && (n <=? 90))%nat then ascii_of_nat (n + 32) else c.

(** [uuid.Parse(s)]: the value and the error, [None] for [nil]. The forms
    accepted are the 36 bytes xxxxxxxx-xxxx-xxxx-xxxx-xxxxxxxxxxxx, the
    same after "urn:uuid:" or inside one byte on each side, and 32
    hexadecimal digits. The handlers below take the parser as a parameter;
    this one serves at the sample requests. *)
Definition Parse (s : string) : UUID * option error :=
  let l := list_ascii_of_string s in
  let canonical (l : list ascii) :=
    if Ascii.eqb (byteAt l 8) "-" && Ascii.eqb (byteAt l 13) "-"
       && Ascii.eqb (byteAt l 18) "-" && Ascii.eqb (byteAt l 23) "-"
    then
      match decode l [0; 2; 4; 6; 9; 11; 14; 16; 19; 21; 24; 26; 28; 30; 32; 34]%nat
                   16 0%N with
      | (u, true) => (u, None)
      | (u, false) => (u, Some (errorString "invalid UUID format"))
      end
    else (Nil, Some (errorString "invalid UUID format")) in
  match List.length l with
  | 36%nat => canonical l
  | 45%nat =>
      if String.eqb (string_of_list_ascii (map lower (firstn 9 l))) "urn:uuid:"
      then canonical (skipn 9 l)
      else (Nil, Some (errorString "invalid urn prefix"))
  | 38%nat => canonical (skipn 1 l)
  | 32%nat =>
      match decode l (map (fun i => 2 * i)%nat (seq 0 16)) 16 0%N with
      | (u, true) => (u, None)
      | (u, false) => (u, Some (errorString "invalid UUID format"))
      end
  | _ => (Nil, Some (errorString "invalid UUID length"))
  end.

End uuid.

(** ** Package models *)

Module models.

Record Subscription : Type := {
  ID : uuid.UUID;
  ServiceName : string;
  Price : Z;
  UserID : uuid.UUID;
  StartDate : time.Time;
  EndDate : option time.Time   (* *time.Time, nil is None *)
}.

End models.
Import models.

(** ** State and errors: the monad of the calls that reach the database *)

Definition M (S A : Type) : Type := S -> result A * S.

Definition ret {S A} (a : A) : M S A := fun s => (Ok a, s).

Definition fail {S A} (e : error) : M S A := fun s => (Err e, s).

Definition bind {S A B} (m : M S A) (k : A -> M S B) : M S B :=
  fun s =>
    match m s with
    | (Ok a, s') => k a s'
    | (Err e, s') => (Err e, s')
    end.

(** A value and an error computed without the state, such as a parse. *)
Definition lift {S A} (r : result A) : M S A := fun s => (r, s).

(** [if err != nil { return fmt.Errorf(msg + ": %w", err) }] *)
Definition wrapping {S A} (msg : string) (m : M S A) : M S A :=
  fun s =>
    match m s with
    | (Ok a, s') => (Ok a, s')
    | (Err e, s') => (Err (wrapError msg e), s')
    end.

Notation "x <- m ;; k" := (bind m (fun x => k))
  (at level 61, m at next level, right associativity).

(** ** Package gorm: the table of subscriptions behind [*gorm.DB] *)

Module gorm.

(** The rows of the table in the order of insertion, and the oracle of
    the driver: the outcome of each statement to come, [Some msg] when the
    driver fails with that message; past the end of the list every
    statement goes through. Of the schema only the primary key is
    modelled. *)
Record DB : Type := {
  rows : list Subscription;
  driver : list (option string)
}.

Definition withRows (db : DB) (l : list Subscription) : DB :=
  {| rows := l; driver := driver db |}.

(** Sending one statement consumes one answer of the driver. *)
Definition send : M DB unit := fun db =>
  match driver db with
  | Some msg :: rest => (Err (driverError msg), {| rows := rows db; driver := rest |})
  | None :: rest => (Ok tt, {| rows := rows db; driver := rest |})
  | [] => (Ok tt, db)
  end.

Definition hasID (id : uuid.UUID) (r : Subscription) : bool := uuid.eqb (ID r) id.

(** [db.Create(sub)]: INSERT; the primary key must be new. *)
Definition Create (sub : Subscription) : M DB unit :=
  _ <- send ;;
  fun db =>
    if existsb (hasID (ID sub)) (rows db)
    then (Err (driverError "duplicate key value violates unique constraint"), db)
    else (Ok tt, withRows db (rows db ++ [sub])).

(** [db.First(&sub, "id = ?", id)]: the first row with this key, and
    [ErrRecordNotFound] when there is none. *)
Definition First (id : uuid.UUID) : M DB Subscription :=
  _ <- send ;;
  fun db =>
    match find (hasID id) (rows db) with
    | Some r => (Ok r, db)
    | None => (Err ErrRecordNotFound, db)
    end.

(** [db.Save(sub)]: UPDATE of every column of the rows with this key, and
    an INSERT when no row has it. *)
Definition Save (sub : Subscription) : M DB unit :=
  _ <- send ;;
  fun db =>
    if existsb (hasID (ID sub)) (rows db)
    then (Ok tt, withRows db (map (fun r => if hasID (ID sub) r then sub else r) (rows db)))
    else (Ok tt, withRows db (rows db ++ [sub])).

(** [db.Delete(&models.Subscription{}, "id = ?", id)]: DELETE of the rows
    with this key. Deleting no row is not an error. *)
Definition Delete (id : uuid.UUID) : M DB unit :=
  _ <- send ;;
  fun db => (Ok tt, withRows db (filter (fun r => negb (hasID id r)) (rows db))).

(** A query under construction: the conditions added by [Where], all of
    which a row must satisfy. *)
Definition Query : Type := list (Subscription -> bool).

Definition Where (cond : Subscription -> bool) (q : Query) : Query := q ++ [cond].

Definition selected (q : Query) (l : list Subscription) : list Subscription :=
  filter (fun r => forallb (fun cond => cond r) q) l.

(** [query.Find(&subs)] *)
Definition Find (q : Query) : M DB (list Subscription) :=
  _ <- send ;;
  fun db => (Ok (selected q (rows db)), db).

(** SQL [SUM]: NULL over no row. *)
Definition SUM (l : list Z) : option Z :=
  match l with
  | [] => None
  | _ => Some (fold_right Z.add 0 l)
  end.

Definition COALESCE (v : option Z) (d : Z) : Z :=
  match v with
  | Some x => x
  | None => d
  end.

(** [query.Select("COALESCE(SUM(price), 0)").Row().Scan(&total)] *)
Definition ScanSumPrice (q : Query) : M DB Z :=
  _ <- send ;;
  fun db => (Ok (COALESCE (SUM (map Price (selected q (rows db)))) 0), db).

End gorm.

(** ** Package repository *)

(** The interface [repositorySubscription] that the service consumes. *)
Class repositorySubscription (S : Type) : Type := {
  repo_Create : Subscription -> M S unit;
  repo_GetByID : uuid.UUID -> M S Subscription;
  repo_Update : Subscription -> M S unit;
  repo_Delete : uuid.UUID -> M S unit;
  repo_List : uuid.UUID -> string -> M S (list Subscription);
  repo_Aggregate : time.Time -> time.Time -> option uuid.UUID -> option string -> M S Z
}.

Module repository.

Definition Create (sub : Subscription) : M gorm.DB unit := gorm.Create sub.

Definition GetByID (id : uuid.UUID) : M gorm.DB Subscription := gorm.First id.

Definition Update (sub : Subscription) : M gorm.DB unit := gorm.Save sub.

Definition Delete (id : uuid.UUID) : M gorm.DB unit := gorm.Delete id.

Definition List (userID : uuid.UUID) (serviceName : string)
  : M gorm.DB (list Subscription) :=
  let query : gorm.Query := [] in
  let query :=
    if negb (uuid.eqb userID uuid.Nil)
    then gorm.Where (fun r => uuid.eqb (UserID r) userID) query
    else query in
  let query :=
    if negb (String.eqb serviceName "")
    then gorm.Where (fun r => String.eqb (ServiceName r) serviceName) query
    else query in
  gorm.Find query.

Definition Aggregate (start end_ : time.Time)
           (userID : option uuid.UUID) (serviceName : option string)
  : M gorm.DB Z :=
  let db : gorm.Query :=
    gorm.Where (fun r => match EndDate r with
                         | Some e => start <=? e
                         | None => true
                         end)
      (gorm.Where (fun r => StartDate r <=? end_) []) in
  let db :=
    match userID with
    | Some u => gorm.Where (fun r => uuid.eqb (UserID r) u) db
    | None => db
    end in
  let db :=
    match serviceName with
    | Some n => gorm.Where (fun r => String.eqb (ServiceName r) n) db
    | None => db
    end in
  wrapping "aggregation query failed" (gorm.ScanSumPrice db).

End repository.

#[export] Instance SubscriptionRepository : repositorySubscription gorm.DB := {
  repo_Create := repository.Create;
  repo_GetByID := repository.GetByID;
  repo_Update := repository.Update;
  repo_Delete := repository.Delete;
  repo_List := repository.List;
  repo_Aggregate := repository.Aggregate
}.

(** ** Package service *)

Module service.

Definition parseMonthYear (dateStr : string) : result time.Time :=
  time.Parse_01_2006 dateStr.

(** [errors.New("end_date must be after start_date")], the error of a
    date range whose end is before its start. *)
Definition ErrInvalidDateRange : error :=
  errorString "end_date must be after start_date".

Section Service.

Context {S : Type} {repo : repositorySubscription S}.

(** [subID] is the identifier that [uuid.New()] draws. *)
Definition Create (subID : uuid.UUID) (serviceName : string) (price : Z)
           (userID : uuid.UUID) (startDateStr endDateStr : string)
  : M S Subscription :=
  startDate <- wrapping "invalid start_date" (lift (parseMonthYear startDateStr)) ;;
  endDate <-
    (if negb (String.eqb endDateStr "") then
       ed <- wrapping "invalid end_date" (lift (parseMonthYear endDateStr)) ;;
       if time.Before ed startDate
       then fail ErrInvalidDateRange
       else ret (Some ed)
     else ret None) ;;
  let sub := {| ID := subID; ServiceName := serviceName; Price := price;
                UserID := userID; StartDate := startDate; EndDate := endDate |} in
  _ <- repo_Create sub ;;
  ret sub.

Definition GetByID (id : uuid.UUID) : M S Subscription :=
  sub <- repo_GetByID id ;;
  ret sub.

Definition Update (id : uuid.UUID) (serviceName : string) (price : Z)
           (startDateStr endDateStr : string) : M S Subscription :=
  sub <- repo_GetByID id ;;
  let sub :=
    if negb (String.eqb serviceName "")
    then {| ID := ID sub; ServiceName := serviceName; Price := Price sub;
            UserID := UserID sub; StartDate := StartDate sub; EndDate := EndDate sub |}
    else sub in
  let sub :=
    if 0 <? price
    then {| ID := ID sub; ServiceName := ServiceName sub; Price := price;
            UserID := UserID sub; StartDate := StartDate sub; EndDate := EndDate sub |}
    else sub in
  sub <-
    (if negb (String.eqb startDateStr "") then
       startDate <- wrapping "invalid start_date" (lift (parseMonthYear startDateStr)) ;;
       ret {| ID := ID sub; ServiceName := ServiceName sub; Price := Price sub;
              UserID := UserID sub; StartDate := startDate; EndDate := EndDate sub |}
     else ret sub) ;;
  sub <-
    (if negb (String.eqb endDateStr "") then
       endDate <- wrapping "invalid end_date" (lift (parseMonthYear endDateStr)) ;;
       if time.Before endDate (StartDate sub)
       then fail ErrInvalidDateRange
       else ret {| ID := ID sub; ServiceName := ServiceName sub; Price := Price sub;
                   UserID := UserID sub; StartDate := StartDate sub;
                   EndDate := Some endDate |}
     else
       ret {| ID := ID sub; ServiceName := ServiceName sub; Price := Price sub;
              UserID := UserID sub; StartDate := StartDate sub; EndDate := None |}) ;;
  _ <- repo_Update sub ;;
  ret sub.

Definition Delete (id : uuid.UUID) : M S unit :=
  _ <- repo_Delete id ;;
  ret tt.

Definition List (userID : uuid.UUID) (serviceName : string)
  : M S (list Subscription) :=
  subs <- repo_List userID serviceName ;;
  ret subs.

Definition Aggregate (startDateStr endDateStr : string)
           (userID : option uuid.UUID) (serviceName : option string) : M S Z :=
  startDate <- wrapping "invalid start_date" (lift (parseMonthYear startDateStr)) ;;
  endDate <- wrapping "invalid end_date" (lift (parseMonthYear endDateStr)) ;;
  let startPeriod := time.Date (time.Year startDate) (time.Month startDate) 1 0 0 0 in
  let endPeriod := time.Date (time.Year endDate) (time.Month endDate + 1) 0 23 59 59 in
  total <- repo_Aggregate startPeriod endPeriod userID serviceName ;;
  ret total.

End Service.

End service.

(** ** Package handler *)

Module http.
Definition StatusOK : Z := 200.
Definition StatusCreated : Z := 201.
Definition StatusNoContent : Z := 204.
Definition StatusBadRequest : Z := 400.
Definition StatusNotFound : Z := 404.
Definition StatusInternalServerError : Z := 500.
End http.

Module handler.

(** What a handler writes: a status and a JSON body. *)
Inductive body : Type :=
| H_error (msg : string)           (* gin.H{"error": msg} *)
| H_errorOf (err : error)          (* gin.H{"error": err.Error()} *)
| H_total (total : Z)              (* gin.H{"total": total} *)
| one (sub : Subscription)
| many (subs : list Subscription)
| empty.

Record Response : Type := { status : Z; payload : body }.

Definition JSON (code : Z) (obj : body) : Response :=
  {| status := code; payload := obj |}.

(** The interface [SubscriptionService] that the handler consumes: a call
    of each method with its arguments, indexed by what it returns. *)
Inductive call : Type -> Type :=
| service_Create (serviceName : string) (price : Z) (userID : uuid.UUID)
                 (startDateStr endDateStr : string) : call (result Subscription)
| service_GetByID (id : uuid.UUID) : call (result Subscription)
| service_Update (id : uuid.UUID) (serviceName : string) (price : Z)
                 (startDateStr endDateStr : string) : call (result Subscription)
| service_Delete (id : uuid.UUID) : call (result unit)
| service_List (userID : uuid.UUID) (serviceName : string)
  : call (result (list Subscription))
| service_Aggregate (startDateStr endDateStr : string)
                    (userID : option uuid.UUID) (serviceName : option string)
  : call (result Z).

(** A handler either responds at once or calls the service once and
    responds from what the service returns. *)
Inductive handling : Type :=
| Respond (r : Response)
| Invoke {A : Type} (c : call A) (k : A -> Response).

(** The response when the service answers each call by [svc]. *)
Definition respond (svc : forall A, call A -> A) (h : handling) : Response :=
  match h with
  | Respond r => r
  | Invoke c k => k (svc _ c)
  end.

(** The request bodies after [c.ShouldBindJSON(&req)]; the handlers take
    the outcome of the binding, the request or the error of the binder. *)
Record CreateRequest : Type := {
  create_ServiceName : string;
  create_Price : Z;
  create_UserID : uuid.UUID;
  create_StartDate : string;
  create_EndDate : string
}.

Record UpdateRequest : Type := {
  update_ServiceName : string;
  update_Price : Z;
  update_StartDate : string;
  update_EndDate : string
}.

Record AggregateRequest : Type := {
  aggregate_StartDate : string;
  aggregate_EndDate : string;
  aggregate_UserID : option uuid.UUID;
  aggregate_ServiceName : option string
}.

Definition Create_reply (r : result Subscription) : Response :=
  match r with
  | Err err => JSON http.StatusBadRequest (H_errorOf err)
  | Ok sub => JSON http.StatusCreated (one sub)
  end.

Definition Create (bound : result CreateRequest) : handling :=
  match bound with
  | Err err => Respond (JSON http.StatusBadRequest (H_errorOf err))
  | Ok req =>
      Invoke (service_Create (create_ServiceName req) (create_Price req)
                (create_UserID req) (create_StartDate req) (create_EndDate req))
             Create_reply
  end.

Definition GetByID_reply (r : result Subscription) : Response :=
  match r with
  | Err err =>
      if errors_Is err ErrRecordNotFound
      then JSON http.StatusNotFound (H_error "subscription not found")
      else JSON http.StatusInternalServerError (H_error "failed to get subscription")
  | Ok sub => JSON http.StatusOK (one sub)
  end.

Definition Update_reply (r : result Subscription) : Response :=
  match r with
  | Err err => JSON http.StatusBadRequest (H_errorOf err)
  | Ok sub => JSON http.StatusOK (one sub)
  end.

Definition Delete_reply (r : result unit) : Response :=
  match r with
  | Err err =>
      if errors_Is err ErrRecordNotFound
      then JSON http.StatusNotFound (H_error "subscription not found")
      else JSON http.StatusInternalServerError (H_error "failed to delete subscription")
  | Ok _ => {| status := http.StatusNoContent; payload := empty |}
  end.

Definition List_reply (r : result (list Subscription)) : Response :=
  match r with
  | Err err => JSON http.StatusInternalServerError (H_error "failed to list subscriptions")
  | Ok subs => JSON http.StatusOK (many subs)
  end.

Definition Aggregate_reply (r : result Z) : Response :=
  match r with
  | Err err => JSON http.StatusInternalServerError (H_errorOf err)
  | Ok total => JSON http.StatusOK (H_total total)
  end.

Definition Aggregate (bound : result AggregateRequest) : handling :=
  match bound with
  | Err err => Respond (JSON http.StatusBadRequest (H_errorOf err))
  | Ok req =>
      Invoke (service_Aggregate (aggregate_StartDate req) (aggregate_EndDate req)
                (aggregate_UserID req) (aggregate_ServiceName req))
             Aggregate_reply
  end.

Section WithParse.

(** [uuid.Parse]: the value it returns and its error, [None] for [nil]. *)
Variable uuid_Parse : string -> uuid.UUID * option error.

Definition GetByID (idParam : string) : handling :=
  match uuid_Parse idParam with
  | (_, Some err) => Respond (JSON http.StatusBadRequest (H_error "invalid subscription ID"))
  | (id, None) => Invoke (service_GetByID id) GetByID_reply
  end.

Definition Update (idParam : string) (bound : result UpdateRequest) : handling :=
  match uuid_Parse idParam with
  | (_, Some err) => Respond (JSON http.StatusBadRequest (H_error "invalid subscription ID"))
  | (id, None) =>
      match bound with
      | Err err => Respond (JSON http.StatusBadRequest (H_errorOf err))
      | Ok req =>
          Invoke (service_Update id (update_ServiceName req) (update_Price req)
                    (update_StartDate req) (update_EndDate req))
                 Update_reply
      end
  end.

Definition Delete (idParam : string) : handling :=
  match uuid_Parse idParam with
  | (_, Some err) => Respond (JSON http.StatusBadRequest (H_error "invalid subscription ID"))
  | (id, None) => Invoke (service_Delete id) Delete_reply
  end.

(** The error of parsing [user_id] is logged and nothing else: the
    value that [uuid.Parse] returned goes to the service either way. *)
Definition List (userIDParam serviceName : string) : handling :=
  let '(userID, parseErr) := uuid_Parse userIDParam in
  Invoke (service_List userID serviceName) List_reply.

End WithParse.

End handler.

(** ** The program assembled as in [main]: handler over service over repository *)

Module app.

Import handler.

(** The service of [main] answering a call of the handler; [subID] is the
    identifier [uuid.New()] draws should the call be a Create. *)
Definition perform (subID : uuid.UUID) {A : Type} (c : call A)
  : gorm.DB -> A * gorm.DB :=
  match c in call T return gorm.DB -> T * gorm.DB with
  | service_Create n p u s e => service.Create subID n p u s e
  | service_GetByID id => service.GetByID id
  | service_Update id n p s e => service.Update id n p s e
  | service_Delete id => service.Delete id
  | service_List u n => service.List u n
  | service_Aggregate s e u n => service.Aggregate s e u n
  end.

Definition serve (subID : uuid.UUID) (h : handling) (db : gorm.DB)
  : Response * gorm.DB :=
  match h with
  | Respond r => (r, db)
  | Invoke c k => let '(a, db') := perform subID c db in (k a, db')
  end.

End app.

(** ** Vocabulary of the properties *)

Module props.

(** The next [n] statements go through: the driver fails at none. *)
Fixpoint goThrough (n : nat) (answers : list (option string)) : bool :=
  match n, answers with
  | O, _ => true
  | S _, [] => true
  | S _, Some _ :: _ => false
  | S n', None :: rest => goThrough n' rest
  end.

Definition ready (n : nat) (db : gorm.DB) : Prop :=
  goThrough n (gorm.driver db) = true.

(** The database once the driver has answered one statement. *)
Definition advance (db : gorm.DB) : gorm.DB :=
  {| gorm.rows := gorm.rows db; gorm.driver := tl (gorm.driver db) |}.

(** The stored subscription with this identifier, if any. *)
Definition stored (id : uuid.UUID) (db : gorm.DB) : option Subscription :=
  find (gorm.hasID id) (gorm.rows db).

(** A subscription is in the window and passes the optional filters. *)
Definition overlaps (windowStart windowEnd : time.Time)
           (userID : option uuid.UUID) (serviceName : option string)
           (r : Subscription) : bool :=
  (StartDate r <=? windowEnd)
  && match EndDate r with
     | Some e => windowStart <=? e
     | None => true
     end
  && match userID with
     | Some u => uuid.eqb (UserID r) u
     | None => true
     end
  && match serviceName with
     | Some n => String.eqb (ServiceName r) n
     | None => true
     end.

Definition totalPrice (l : list Subscription) : Z :=
  fold_right Z.add 0 (map Price l).

(** The end date, when set, is not earlier than the start date. *)
Definition endNotBeforeStart (r : Subscription) : Prop :=
  match EndDate r with
  | Some e => StartDate r <= e
  | None => True
  end.

(** The operations of the service, with their arguments. *)
Inductive operation : Type :=
| OpCreate (subID : uuid.UUID) (serviceName : string) (price : Z)
           (userID : uuid.UUID) (startDateStr endDateStr : string)
| OpGetByID (id : uuid.UUID)
| OpUpdate (id : uuid.UUID) (serviceName : string) (price : Z)
           (startDateStr endDateStr : string)
| OpDelete (id : uuid.UUID)
| OpList (userID : uuid.UUID) (serviceName : string)
| OpAggregate (startDateStr endDateStr : string)
              (userID : option uuid.UUID) (serviceName : option string).

(** The database after an operation, failed or not. *)
Definition after (op : operation) (db : gorm.DB) : gorm.DB :=
  match op with
  | OpCreate i n p u s e => snd (service.Create i n p u s e db)
  | OpGetByID i => snd (service.GetByID i db)
  | OpUpdate i n p s e => snd (service.Update i n p s e db)
  | OpDelete i => snd (service.Delete i db)
  | OpList u n => snd (service.List u n db)
  | OpAggregate s e u n => snd (service.Aggregate s e u n db)
  end.

(** The subscription a successful Create or Update returns. *)
Definition written (op : operation) (db : gorm.DB) : option Subscription :=
  match op with
  | OpCreate i n p u s e =>
      match fst (service.Create i n p u s e db) with
      | Ok sub => Some sub
      | Err _ => None
      end
  | OpUpdate i n p s e =>
      match fst (service.Update i n p s e db) with
      | Ok sub => Some sub
      | Err _ => None
      end
  | _ => None
  end.

(** The dates of a Create request as the service validates them: the start
    date and the optional end date, or the error of the validation. *)
Definition checkedDates (startDateStr endDateStr : string)
  : result (time.Time * option time.Time) :=
  match service.parseMonthYear startDateStr with
  | Err err => Err (wrapError "invalid start_date" err)
  | Ok startDate =>
      if negb (String.eqb endDateStr "") then
        match service.parseMonthYear endDateStr with
        | Err err => Err (wrapError "invalid end_date" err)
        | Ok ed =>
            if time.Before ed startDate
            then Err service.ErrInvalidDateRange
            else Ok (startDate, Some ed)
        end
      else Ok (startDate, None)
  end.

Definition withServiceName (sub : Subscription) (serviceName : string) : Subscription :=
  {| ID := ID sub; ServiceName := serviceName; Price := Price sub;
     UserID := UserID sub; StartDate := StartDate sub; EndDate := EndDate sub |}.

Definition withPrice (sub : Subscription) (price : Z) : Subscription :=
  {| ID := ID sub; ServiceName := ServiceName sub; Price := price;
     UserID := UserID sub; StartDate := StartDate sub; EndDate := EndDate sub |}.

Definition withStartDate (sub : Subscription) (startDate : time.Time) : Subscription :=
  {| ID := ID sub; ServiceName := ServiceName sub; Price := Price sub;
     UserID := UserID sub; StartDate := startDate; EndDate := EndDate sub |}.

Definition withEndDate (sub : Subscription) (endDate : option time.Time) : Subscription :=
  {| ID := ID sub; ServiceName := ServiceName sub; Price := Price sub;
     UserID := UserID sub; StartDate := StartDate sub; EndDate := endDate |}.

(** The subscription an Update request makes of the loaded one, before it
    is saved: the fields applied in the order of the service, or the error
    of the validation. *)
Definition patched (sub : Subscription) (serviceName : string) (price : Z)
           (startDateStr endDateStr : string) : result Subscription :=
  let sub := if negb (String.eqb serviceName "") then withServiceName sub serviceName else sub in
  let sub := if 0 <? price then withPrice sub price else sub in
  match (if negb (String.eqb startDateStr "") then
           match service.parseMonthYear startDateStr with
           | Err err => Err (wrapError "invalid start_date" err)
           | Ok startDate => Ok (withStartDate sub startDate)
           end
         else Ok sub) with
  | Err err => Err err
  | Ok sub =>
      if negb (String.eqb endDateStr "") then
        match service.parseMonthYear endDateStr with
        | Err err => Err (wrapError "invalid end_date" err)
        | Ok endDate =>
            if time.Before endDate (StartDate sub)
            then Err service.ErrInvalidDateRange
            else Ok (withEndDate sub (Some endDate))
        end
      else Ok (withEndDate sub None)
  end.

(** The rows once [sub] is saved: it takes the place of the rows with its
    key, or comes last when there is none. *)
Definition saved (sub : Subscription) (l : list Subscription) : list Subscription :=
  if existsb (gorm.hasID (ID sub)) l
  then map (fun r => if gorm.hasID (ID sub) r then sub else r) l
  else l ++ [sub].

End props.
Import props.

(** ** Sample data: the scenario of the specification *)

Module sample.

Definition user : uuid.UUID := 7%N.

Definition netflix : Subscription :=
  {| ID := 1%N; ServiceName := "Netflix"; Price := 1000; UserID := user;
     StartDate := time.Date 2025 7 1 0 0 0;
     EndDate := Some (time.Date 2025 10 1 0 0 0) |}.

Definition spotify : Subscription :=
  {| ID := 2%N; ServiceName := "Spotify"; Price := 500; UserID := user;
     StartDate := time.Date 2025 9 1 0 0 0;
     EndDate := None |}.

Definition noRows : gorm.DB := {| gorm.rows := []; gorm.driver := [] |}.

Definition twoRows : gorm.DB := {| gorm.rows := [netflix; spotify]; gorm.driver := [] |}.

(** The text of an identifier that names no row of [twoRows]. *)
Definition absentID : string := "60601fee-2bf1-4721-ae6f-7636e79a0cba".

(** The service of [main] over [twoRows], as the handler sees it. *)
Definition service (A : Type) (c : handler.call A) : A :=
  fst (app.perform 9%N c twoRows).

Definition badAggregate : handler.AggregateRequest :=
  {| handler.aggregate_StartDate := "2025-07";
     handler.aggregate_EndDate := "10-2025";
     handler.aggregate_UserID := None;
     handler.aggregate_ServiceName := None |}.

End sample.

(** ** Vocabulary of the further properties *)

Module laws.

Definition isOk {A : Type} (r : result A) : bool :=
  match r with
  | Ok _ => true
  | Err _ => false
  end.

(** Whether an operation of the service returns no error. *)
Definition succeeds (op : operation) (db : gorm.DB) : bool :=
  match op with
  | OpCreate i n p u s e => isOk (fst (service.Create i n p u s e db))
  | OpGetByID i => isOk (fst (service.GetByID i db))
  | OpUpdate i n p s e => isOk (fst (service.Update i n p s e db))
  | OpDelete i => isOk (fst (service.Delete i db))
  | OpList u n => isOk (fst (service.List u n db))
  | OpAggregate s e u n => isOk (fst (service.Aggregate s e u n db))
  end.

(** The operations that only read. *)
Definition readsOnly (op : operation) : bool :=
  match op with
  | OpGetByID _ | OpList _ _ | OpAggregate _ _ _ _ => true
  | _ => false
  end.

(** The price a Create is given is positive; the other operations are given
    no price that they store unchecked. *)
Definition givesPositivePrice (op : operation) : Prop :=
  match op with
  | OpCreate _ _ p _ _ _ => 0 < p
  | _ => True
  end.

(** The first instant of a month, UTC. *)
Definition monthStart (t : time.Time) : Prop :=
  exists y m, 1 <= m <= 12 /\ t = time.Date y m 1 0 0 0.

(** Both dates of a subscription are first instants of a month. *)
Definition monthAligned (r : Subscription) : Prop :=
  monthStart (StartDate r)
  /\ match EndDate r with
     | Some e => monthStart e
     | None => True
     end.

(** The months in their order: month [m] of year [y] counted from year 0. *)
Definition monthIndex (y m : Z) : Z := 12 * y + m.

(** A row passes the filters of List: the nil identifier and the empty
    name filter nothing. *)
Definition listed (userID : uuid.UUID) (serviceName : string) (r : Subscription) : bool :=
  (uuid.eqb userID uuid.Nil || uuid.eqb (UserID r) userID)
  && (String.eqb serviceName "" || String.eqb (ServiceName r) serviceName).

(** The month an instant falls in, in the order of the months. *)
Definition monthOf (t : time.Time) : Z := monthIndex (time.Year t) (time.Month t).

(** The months of a subscription, from the month of its start to the month
    of its end or without end, meet the months from the month of
    [startDate] to the month of [endDate]. *)
Definition monthsOverlap (startDate endDate : time.Time) (r : Subscription) : bool :=
  (monthOf (StartDate r) <=? monthOf endDate)
  && match EndDate r with
     | Some e => monthOf startDate <=? monthOf e
     | None => true
     end.

(** A row passes the optional filters of Aggregate. *)
Definition passes (userID : option uuid.UUID) (serviceName : option string)
           (r : Subscription) : bool :=
  match userID with
  | Some u => uuid.eqb (UserID r) u
  | None => true
  end
  && match serviceName with
     | Some n => String.eqb (ServiceName r) n
     | None => true
     end.

Definition errorOf {A : Type} (r : result A) : option error :=
  match r with
  | Ok _ => None
  | Err e => Some e
  end.

(** The error an operation of the service returns, if it returns one. *)
Definition failure (op : operation) (db : gorm.DB) : option error :=
  match op with
  | OpCreate i n p u s e => errorOf (fst (service.Create i n p u s e db))
  | OpGetByID i => errorOf (fst (service.GetByID i db))
  | OpUpdate i n p s e => errorOf (fst (service.Update i n p s e db))
  | OpDelete i => errorOf (fst (service.Delete i db))
  | OpList u n => errorOf (fst (service.List u n db))
  | OpAggregate s e u n => errorOf (fst (service.Aggregate s e u n db))
  end.

End laws.
Import laws.

(** ** More sample data *)

Module cases.

(** The identifier of Netflix in [sample.twoRows], as a request spells it. *)
Definition netflixID : string := "00000000-0000-0000-0000-000000000001".

(** A second user, with one subscription. *)
Definition otherUser : uuid.UUID := 8%N.

Definition netflixOfOther : Subscription :=
  {| ID := 3%N; ServiceName := "Netflix"; Price := 900; UserID := otherUser;
     StartDate := time.Date 2025 1 1 0 0 0;
     EndDate := Some (time.Date 2025 6 1 0 0 0) |}.

Definition threeRows : gorm.DB :=
  {| gorm.rows := [sample.netflix; sample.spotify; netflixOfOther]; gorm.driver := [] |}.

(** The driver fails at the next statement. *)
Definition downRows : gorm.DB :=
  {| gorm.rows := [sample.netflix; sample.spotify];
     gorm.driver := [Some "connection refused"] |}.

Definition createYandex : handler.CreateRequest :=
  {| handler.create_ServiceName := "Yandex Plus";
     handler.create_Price := 400;
     handler.create_UserID := sample.user;
     handler.create_StartDate := "07-2025";
     handler.create_EndDate := "" |}.

Definition yandex : Subscription :=
  {| ID := 4%N; ServiceName := "Yandex Plus"; Price := 400; UserID := sample.user;
     StartDate := time.Date 2025 7 1 0 0 0; EndDate := None |}.

Definition yandexID : string := "00000000-0000-0000-0000-000000000004".

Definition updatePrice : handler.UpdateRequest :=
  {| handler.update_ServiceName := "";
     handler.update_Price := 1200;
     handler.update_StartDate := "";
     handler.update_EndDate := "07-2026" |}.

End cases.

(** ** Facts about package time *)

Section TimeFacts.

Import time.

Lemma isLeap_spec (y : Z) :
  isLeap y = true <-> (y mod 4 = 0 /\ (y mod 100 <> 0 \/ y mod 400 = 0)).
Proof.
  unfold isLeap.
  rewrite andb_true_iff, orb_true_iff, negb_true_iff, !Z.eqb_eq, Z.eqb_neq.
  tauto.
Qed.

Lemma daysSinceEpoch_next (y : Z) :
  daysSinceEpoch (y + 1) = daysSinceEpoch y + 365 + (if isLeap y then 1 else 0).
Proof.
  unfold daysSinceEpoch, leapsBefore.
  replace (y + 1 - 1) with y by lia.
  destruct (isLeap y) eqn:L.
  - apply isLeap_spec in L. Z.div_mod_to_equations. lia.
  - assert (N : ~ (y mod 4 = 0 /\ (y mod 100 <> 0 \/ y mod 400 = 0))).
    { rewrite <- isLeap_spec. congruence. }
    Z.div_mod_to_equations. lia.
Qed.

(** Within the year, [Date] normalises nothing. *)
Lemma Date_in_year (y m d hh mm ss : Z) :
  1 <= m <= 12 ->
  Date y m d hh mm ss =
    (daysSinceEpoch y + daysBefore m
     + (if isLeap y && (3 <=? m) then 1 else 0) + (d - 1))
    * 86400 + hh * 3600 + mm * 60 + ss.
Proof.
  intros Hm. unfold Date, norm.
  replace ((m - 1) / 12) with 0 by (symmetry; apply Z.div_small; lia).
  rewrite Z.mod_small by lia.
  replace (y + 0) with y by lia. replace (m - 1 + 1) with m by lia.
  reflexivity.
Qed.

(** Month 13 is January of the next year. *)
Lemma Date_month_13 (y d hh mm ss : Z) :
  Date y 13 d hh mm ss = Date (y + 1) 1 d hh mm ss.
Proof.
  unfold Date, norm.
  change ((13 - 1) / 12) with 1. change ((13 - 1) mod 12) with 0.
  change ((1 - 1) / 12) with 0. change ((1 - 1) mod 12) with 0.
  rewrite !Z.add_0_r. reflexivity.
Qed.

(** Day 0 of the next month is the last day of the month. *)
Lemma Date_last_day (y m : Z) :
  1 <= m <= 12 ->
  Date y (m + 1) 0 23 59 59 = Date y m (daysIn m y) 23 59 59.
Proof.
  intros Hm.
  assert (C : m = 1 \/ m = 2 \/ m = 3 \/ m = 4 \/ m = 5 \/ m = 6 \/ m = 7 \/ m = 8
              \/ m = 9 \/ m = 10 \/ m = 11 \/ m = 12) by lia.
  destruct C as [-> | [-> | [-> | [-> | [-> | [-> | [-> | [-> | [-> | [-> | [-> | ->]]]]]]]]]]];
    cbn [Z.add Pos.add Pos.succ].
  all: try (rewrite !Date_in_year by lia; unfold daysIn;
            cbn [Z.eqb Pos.eqb andb Z.leb Z.compare Pos.compare Pos.compare_cont
                 daysBefore Z.add Pos.add Pos.succ];
            destruct (isLeap y); cbn; lia).
  rewrite Date_month_13, !Date_in_year by lia. rewrite daysSinceEpoch_next.
  unfold daysIn. destruct (isLeap y), (isLeap (y + 1)); cbn; lia.
Qed.

(** The last second of a month is the second before the next month. *)
Lemma Date_last_second (y m : Z) :
  1 <= m <= 12 ->
  Date y m (daysIn m y) 23 59 59 = Date y (m + 1) 1 0 0 0 - 1.
Proof.
  intros Hm. rewrite <- Date_last_day by assumption.
  unfold Date. destruct (norm y (m + 1 - 1) 12) as [y' m']. lia.
Qed.

(** The year of the era is recovered from the day of the era. *)
Lemma yoe_recovered (yoe doy : Z) :
  0 <= yoe < 400 -> 0 <= doy <= 364 ->
  let doe := 365 * yoe + yoe / 4 - yoe / 100 + doy in
  (doe - doe / 1460 + doe / 36524 - doe / 146096) / 365 = yoe.
Proof.
  intros Hy Hd doe. subst doe.
  Z.div_mod_to_equations. lia.
Qed.

(** The civil date of a day given by its era, its year of the era and its
    month counted from March. *)
Lemma civil_of_day (D era yoe mp : Z) :
  0 <= yoe < 400 -> 0 <= mp <= 11 ->
  D + 719468 = era * 146097 + (365 * yoe + yoe / 4 - yoe / 100 + (153 * mp + 2) / 5) ->
  civil (D * 86400) =
    (yoe + era * 400 + (if (if mp <? 10 then mp + 3 else mp - 9) <=? 2 then 1 else 0),
     if mp <? 10 then mp + 3 else mp - 9,
     1).
Proof.
  intros Hy Hmp HD. unfold civil.
  rewrite Z.div_mul by lia. rewrite HD.
  set (doy := (153 * mp + 2) / 5).
  assert (Hdoy : 0 <= doy <= 337) by (subst doy; Z.div_mod_to_equations; lia).
  set (doe := 365 * yoe + yoe / 4 - yoe / 100 + doy).
  assert (Hdoe : 0 <= doe < 146097) by (subst doe; Z.div_mod_to_equations; lia).
  replace ((era * 146097 + doe) / 146097) with era
    by (symmetry; rewrite Z.add_comm, Z.div_add by lia; rewrite Z.div_small by lia; lia).
  replace (era * 146097 + doe - era * 146097) with doe by lia.
  assert (Hyoe : (doe - doe / 1460 + doe / 36524 - doe / 146096) / 365 = yoe)
    by (apply yoe_recovered; lia).
  rewrite Hyoe.
  replace (doe - (365 * yoe + yoe / 4 - yoe / 100)) with doy by (subst doe; lia).
  assert (Hmp' : (5 * doy + 2) / 153 = mp) by (subst doy; Z.div_mod_to_equations; lia).
  rewrite Hmp'. fold doy.
  replace (doy - doy + 1) with 1 by lia.
  reflexivity.
Qed.

Lemma dayNumber_from_March (y m : Z) :
  1 <= m <= 12 ->
  let y' := if m <=? 2 then y - 1 else y in
  let mp := if m <=? 2 then m + 9 else m - 3 in
  daysSinceEpoch y + daysBefore m + (if isLeap y && (3 <=? m) then 1 else 0) + 719468
  = y' / 400 * 146097
    + (365 * (y' mod 400) + (y' mod 400) / 4 - (y' mod 400) / 100 + (153 * mp + 2) / 5).
Proof.
  intros Hm.
  assert (C : m = 1 \/ m = 2 \/ m = 3 \/ m = 4 \/ m = 5 \/ m = 6 \/ m = 7 \/ m = 8
              \/ m = 9 \/ m = 10 \/ m = 11 \/ m = 12) by lia.
  unfold daysSinceEpoch, leapsBefore.
  change ((1970 - 1) / 4 - (1970 - 1) / 100 + (1970 - 1) / 400) with 477.
  destruct (isLeap y) eqn:L.
  - apply isLeap_spec in L.
    destruct C as [-> | [-> | [-> | [-> | [-> | [-> | [-> | [-> | [-> | [-> | [-> | ->]]]]]]]]]]];
      cbv zeta; cbn [daysBefore Z.leb Z.compare Pos.compare Pos.compare_cont andb].
    all: (Z.div_mod_to_equations; lia).
  - assert (N : ~ (y mod 4 = 0 /\ (y mod 100 <> 0 \/ y mod 400 = 0))).
    { rewrite <- isLeap_spec. congruence. }
    destruct C as [-> | [-> | [-> | [-> | [-> | [-> | [-> | [-> | [-> | [-> | [-> | ->]]]]]]]]]]];
      cbv zeta; cbn [daysBefore Z.leb Z.compare Pos.compare Pos.compare_cont andb].
    all: (Z.div_mod_to_equations; lia).
Qed.

Lemma civil_of_first (y m : Z) :
  1 <= m <= 12 -> civil (Date y m 1 0 0 0) = (y, m, 1).
Proof.
  intros Hm. rewrite Date_in_year by assumption.
  set (D := daysSinceEpoch y + daysBefore m + (if isLeap y && (3 <=? m) then 1 else 0)).
  replace ((D + (1 - 1)) * 86400 + 0 * 3600 + 0 * 60 + 0) with (D * 86400) by lia.
  pose proof (dayNumber_from_March y m Hm) as HD. cbv zeta in HD. fold D in HD.
  set (y' := if m <=? 2 then y - 1 else y) in HD.
  set (mp := if m <=? 2 then m + 9 else m - 3) in HD.
  assert (Hyoe : 0 <= y' mod 400 < 400) by (apply Z.mod_pos_bound; lia).
  assert (Hmp : 0 <= mp <= 11) by (subst mp; destruct (Z.leb_spec m 2); lia).
  rewrite (civil_of_day D (y' / 400) (y' mod 400) mp Hyoe Hmp HD).
  pose proof (Z.div_mod y' 400 ltac:(lia)) as Hdm.
  subst y' mp.
  destruct (Z.leb_spec m 2) as [Hle|Hgt].
  - destruct (Z.ltb_spec (m + 9) 10) as [?|_]; [lia|].
    replace (m + 9 - 9) with m by lia.
    destruct (Z.leb_spec m 2) as [_|?]; [|lia].
    f_equal. f_equal. lia.
  - destruct (Z.ltb_spec (m - 3) 10) as [_|?]; [|lia].
    replace (m - 3 + 3) with m by lia.
    destruct (Z.leb_spec m 2) as [?|_]; [lia|].
    f_equal. f_equal. lia.
Qed.

Lemma Year_Month_of_first (y m : Z) :
  1 <= m <= 12 ->
  Year (Date y m 1 0 0 0) = y /\ Month (Date y m 1 0 0 0) = m.
Proof.
  intros Hm. unfold Year, Month. rewrite civil_of_first by assumption.
  split; reflexivity.
Qed.

Lemma isDigit_digit (c : ascii) : isDigit c = true -> 0 <= digit c <= 9.
Proof.
  unfold isDigit, digit. rewrite andb_true_iff, !Z.leb_le. lia.
Qed.
(** Closes a goal whose hypothesis equates a failure and a success. *)
Ltac absurd_result :=
  cbn [andb];
  match goal with
  | |- Err _ = Ok _ -> _ => let H := fresh in intros H; discriminate H
  | |- Ok _ = Err _ -> _ => let H := fresh in intros H; discriminate H
  end.
Lemma Parse_01_2006_Ok (value : string) (t : Time) :
  Parse_01_2006 value = Ok t ->
  exists y m, 0 <= y <= 9999 /\ 1 <= m <= 12 /\ t = Date y m 1 0 0 0.
Proof.
  unfold Parse_01_2006; cbv zeta.
  destruct value as [|m1 [|m2 [|dash [|y1 [|y2 [|y3 [|y4 [|]]]]]]]]; try absurd_result.
  destruct (isDigit m1) eqn:D1; [|absurd_result].
  destruct (isDigit m2) eqn:D2; [|absurd_result].
  destruct (Ascii.eqb dash "-") eqn:Dd; [|absurd_result].
  destruct (isDigit y1) eqn:D3; [|absurd_result].
  destruct (isDigit y2) eqn:D4; [|absurd_result].
  destruct (isDigit y3) eqn:D5; [|absurd_result].
  destruct (isDigit y4) eqn:D6; [|absurd_result].
  cbn [andb].
  destruct ((1 <=? digit m1 * 10 + digit m2) && (digit m1 * 10 + digit m2 <=? 12)) eqn:R;
    [|absurd_result].
  intros H. injection H as <-.
  apply andb_true_iff in R. rewrite !Z.leb_le in R.
  apply isDigit_digit in D3, D4, D5, D6.
  exists (digit y1 * 1000 + digit y2 * 100 + digit y3 * 10 + digit y4),
         (digit m1 * 10 + digit m2).
  repeat split; lia.
Qed.

End TimeFacts.

(** ** Facts about the table and the repository *)

Section Facts.

Import handler.

Lemma send_ready db : ready 1 db -> gorm.send db = (Ok tt, advance db).
Proof.
  unfold ready, gorm.send, advance. destruct db as [l [|[msg|] rest]]; cbn; congruence.
Qed.

Lemma send_cases db :
  gorm.send db = (Ok tt, advance db)
  \/ exists msg, gorm.send db = (Err (driverError msg), advance db).
Proof.
  unfold gorm.send, advance. destruct db as [l [|[msg|] rest]]; cbn; eauto.
Qed.

Lemma ready_advance n db : ready (S n) db -> ready n (advance db).
Proof.
  unfold ready, advance. destruct db as [l [|[msg|] rest]]; cbn; try congruence.
  intros _. now destruct n.
Qed.

Lemma ready_first n db : ready (S n) db -> ready 1 db.
Proof.
  unfold ready. destruct db as [l [|[msg|] rest]]; cbn; congruence.
Qed.

Lemma hasID_eq id r : gorm.hasID id r = true <-> ID r = id.
Proof. unfold gorm.hasID, uuid.eqb. apply N.eqb_eq. Qed.

Lemma stored_ID id db sub : stored id db = Some sub -> ID sub = id.
Proof.
  unfold stored. intros H. apply find_some in H. now apply hasID_eq.
Qed.

Lemma find_replaced {A} (p : A -> bool) (y : A) (l : list A) :
  p y = true -> existsb p l = true ->
  find p (map (fun r => if p r then y else r) l) = Some y.
Proof.
  intros Hy. induction l as [|x l IH]; cbn; [discriminate|].
  destruct (p x) eqn:Hx; cbn.
  - now rewrite Hy.
  - rewrite Hx. exact IH.
Qed.

Lemma find_appended {A} (p : A -> bool) (y : A) (l : list A) :
  p y = true -> existsb p l = false -> find p (l ++ [y]) = Some y.
Proof.
  intros Hy. induction l as [|x l IH]; cbn.
  - now rewrite Hy.
  - destruct (p x); [discriminate|exact IH].
Qed.

Lemma find_existsb {A} (p : A -> bool) (l : list A) :
  existsb p l = match find p l with Some _ => true | None => false end.
Proof.
  induction l as [|x l IH]; cbn; [reflexivity|].
  destruct (p x); [reflexivity|exact IH].
Qed.

Lemma find_saved sub l : find (gorm.hasID (ID sub)) (saved sub l) = Some sub.
Proof.
  unfold saved. destruct (existsb _ l) eqn:E.
  - apply find_replaced; [now apply hasID_eq|assumption].
  - apply find_appended; [now apply hasID_eq|assumption].
Qed.

Lemma In_saved sub l : In sub (saved sub l).
Proof.
  pose proof (find_saved sub l) as H. now apply find_some in H.
Qed.

Lemma GetByID_eq id db :
  repository.GetByID id db =
  match gorm.send db with
  | (Ok _, db') =>
      (match stored id db with Some r => Ok r | None => Err ErrRecordNotFound end, db')
  | (Err e, db') => (Err e, db')
  end.
Proof.
  unfold repository.GetByID, gorm.First, bind, stored.
  destruct (send_cases db) as [H|[msg H]]; rewrite H; [|reflexivity].
  cbn [advance gorm.rows]. now destruct (find _ _).
Qed.

Lemma Update_eq sub db :
  repository.Update sub db =
  match gorm.send db with
  | (Ok _, db') => (Ok tt, gorm.withRows db' (saved sub (gorm.rows db)))
  | (Err e, db') => (Err e, db')
  end.
Proof.
  unfold repository.Update, gorm.Save, bind, saved.
  destruct (send_cases db) as [H|[msg H]]; rewrite H; [|reflexivity].
  cbn [advance gorm.rows]. now destruct (existsb _ _).
Qed.

Lemma Create_eq sub db :
  repository.Create sub db =
  match gorm.send db with
  | (Ok _, db') =>
      if existsb (gorm.hasID (ID sub)) (gorm.rows db)
      then (Err (driverError "duplicate key value violates unique constraint"), db')
      else (Ok tt, gorm.withRows db' (gorm.rows db ++ [sub]))
  | (Err e, db') => (Err e, db')
  end.
Proof.
  unfold repository.Create, gorm.Create, bind.
  destruct (send_cases db) as [H|[msg H]]; rewrite H; reflexivity.
Qed.

Lemma service_Update_eq id serviceName price startDateStr endDateStr db :
  service.Update id serviceName price startDateStr endDateStr db =
  match repository.GetByID id db with
  | (Err e, db') => (Err e, db')
  | (Ok sub, db') =>
      match patched sub serviceName price startDateStr endDateStr with
      | Err e => (Err e, db')
      | Ok sub' =>
          match repository.Update sub' db' with
          | (Ok _, db'') => (Ok sub', db'')
          | (Err e, db'') => (Err e, db'')
          end
      end
  end.
Proof.
  unfold service.Update, bind. cbn [repo_GetByID repo_Update SubscriptionRepository].
  destruct (repository.GetByID id db) as [[sub|e] db']; [|reflexivity].
  unfold patched, withServiceName, withPrice, withStartDate, withEndDate.
  destruct (negb (serviceName =? "")%string), (0 <? price),
    (negb (startDateStr =? "")%string), (negb (endDateStr =? "")%string);
    unfold wrapping, lift, ret, fail;
    repeat match goal with
           | |- context [service.parseMonthYear ?s] => destruct (service.parseMonthYear s)
           | |- context [time.Before ?a ?b] => destruct (time.Before a b)
           end;
    cbn [StartDate]; try reflexivity.
Qed.

Lemma service_Create_eq subID serviceName price userID startDateStr endDateStr db :
  service.Create subID serviceName price userID startDateStr endDateStr db =
  match checkedDates startDateStr endDateStr with
  | Err e => (Err e, db)
  | Ok (startDate, endDate) =>
      let sub := {| ID := subID; ServiceName := serviceName; Price := price;
                    UserID := userID; StartDate := startDate; EndDate := endDate |} in
      match repository.Create sub db with
      | (Ok _, db') => (Ok sub, db')
      | (Err e, db') => (Err e, db')
      end
  end.
Proof.
  unfold service.Create, checkedDates, bind, wrapping, lift, ret, fail.
  cbn [repo_Create SubscriptionRepository].
  destruct (service.parseMonthYear startDateStr) as [startDate|e]; [|reflexivity].
  destruct (negb (endDateStr =? "")%string); [|reflexivity].
  destruct (service.parseMonthYear endDateStr) as [ed|e]; [|reflexivity].
  destruct (time.Before ed startDate); reflexivity.
Qed.

Lemma service_Aggregate_eq startDateStr endDateStr userID serviceName db :
  service.Aggregate startDateStr endDateStr userID serviceName db =
  match service.parseMonthYear startDateStr with
  | Err e => (Err (wrapError "invalid start_date" e), db)
  | Ok startDate =>
      match service.parseMonthYear endDateStr with
      | Err e => (Err (wrapError "invalid end_date" e), db)
      | Ok endDate =>
          repository.Aggregate
            (time.Date (time.Year startDate) (time.Month startDate) 1 0 0 0)
            (time.Date (time.Year endDate) (time.Month endDate + 1) 0 23 59 59)
            userID serviceName db
      end
  end.
Proof.
  unfold service.Aggregate, bind, wrapping, lift, ret.
  cbn [repo_Aggregate SubscriptionRepository].
  destruct (service.parseMonthYear startDateStr) as [startDate|e]; [|reflexivity].
  destruct (service.parseMonthYear endDateStr) as [endDate|e]; [|reflexivity].
  destruct (repository.Aggregate _ _ _ _ db) as [[total|e] db']; reflexivity.
Qed.

Lemma selected_overlaps start end_ userID serviceName l :
  gorm.selected
    (let db := gorm.Where (fun r => match EndDate r with
                                     | Some e => start <=? e
                                     | None => true
                                     end)
                 (gorm.Where (fun r => StartDate r <=? end_) []) in
     let db := match userID with
               | Some u => gorm.Where (fun r => uuid.eqb (UserID r) u) db
               | None => db
               end in
     match serviceName with
     | Some n => gorm.Where (fun r => String.eqb (ServiceName r) n) db
     | None => db
     end) l
  = filter (overlaps start end_ userID serviceName) l.
Proof.
  unfold gorm.selected. apply filter_ext. intros r. unfold overlaps, gorm.Where.
  destruct userID, serviceName; cbn [app forallb];
    rewrite ?andb_true_r, ?andb_assoc; reflexivity.
Qed.

Lemma SUM_COALESCE l : gorm.COALESCE (gorm.SUM l) 0 = fold_right Z.add 0 l.
Proof. destruct l; reflexivity. Qed.

Lemma repository_Aggregate_eq start end_ userID serviceName db :
  repository.Aggregate start end_ userID serviceName db =
  match gorm.send db with
  | (Ok _, db') =>
      (Ok (totalPrice (filter (overlaps start end_ userID serviceName) (gorm.rows db))), db')
  | (Err e, db') => (Err (wrapError "aggregation query failed" e), db')
  end.
Proof.
  unfold repository.Aggregate, wrapping, gorm.ScanSumPrice, bind.
  destruct (send_cases db) as [H|[msg H]]; rewrite H; [|reflexivity].
  cbn [advance gorm.rows]. rewrite SUM_COALESCE.
  rewrite (selected_overlaps start end_ userID serviceName). reflexivity.
Qed.

Lemma stored_advance id db : stored id (advance db) = stored id db.
Proof. reflexivity. Qed.

(** C1. For every pair of parseable MM-YYYY dates, Aggregate takes the
    window from the first day of the start month at 00:00:00 UTC to the
    last day of the end month at 23:59:59 UTC and, when the statement goes
    through, returns the sum of the prices of exactly the rows with
    start_date <= windowEnd and (end_date >= windowStart or no end_date)
    that pass the optional user_id and service_name filters; when no row
    matches it returns 0 and no error. *)
Theorem Aggregate_sums_over_whole_month_window :
  forall startDateStr endDateStr startDate endDate userID serviceName db,
    service.parseMonthYear startDateStr = Ok startDate ->
    service.parseMonthYear endDateStr = Ok endDate ->
    ready 1 db ->
    exists y1 m1 y2 m2,
      (1 <= m1 <= 12 /\ startDate = time.Date y1 m1 1 0 0 0)
      /\ (1 <= m2 <= 12 /\ endDate = time.Date y2 m2 1 0 0 0)
      /\ let windowStart := time.Date y1 m1 1 0 0 0 in
         let windowEnd := time.Date y2 m2 (time.daysIn m2 y2) 23 59 59 in
         let matching :=
           filter (overlaps windowStart windowEnd userID serviceName) (gorm.rows db) in
         fst (service.Aggregate startDateStr endDateStr userID serviceName db)
           = Ok (totalPrice matching)
         /\ (matching = [] ->
             fst (service.Aggregate startDateStr endDateStr userID serviceName db) = Ok 0).
Proof.
  intros startDateStr endDateStr startDate endDate userID serviceName db Hs He Hready.
  destruct (Parse_01_2006_Ok _ _ Hs) as (y1 & m1 & _ & Hm1 & ->).
  destruct (Parse_01_2006_Ok _ _ He) as (y2 & m2 & _ & Hm2 & ->).
  exists y1, m1, y2, m2. split; [now split|]. split; [now split|].
  cbv zeta.
  rewrite service_Aggregate_eq, Hs, He.
  destruct (Year_Month_of_first y1 m1 Hm1) as [-> ->].
  destruct (Year_Month_of_first y2 m2 Hm2) as [-> ->].
  rewrite Date_last_day by assumption.
  rewrite repository_Aggregate_eq, send_ready by assumption.
  cbn [fst]. split; [reflexivity|]. intros ->. reflexivity.
Qed.

(** C9. For every pair of parseable dates, Aggregate never returns the
    error of an invalid date range, whatever the order of the two dates,
    and it returns a total when the statement goes through. *)
Theorem Aggregate_checks_no_date_order :
  forall startDateStr endDateStr startDate endDate userID serviceName db,
    service.parseMonthYear startDateStr = Ok startDate ->
    service.parseMonthYear endDateStr = Ok endDate ->
    fst (service.Aggregate startDateStr endDateStr userID serviceName db)
      <> Err service.ErrInvalidDateRange
    /\ (ready 1 db ->
        exists total,
          fst (service.Aggregate startDateStr endDateStr userID serviceName db) = Ok total).
Proof.
  intros startDateStr endDateStr startDate endDate userID serviceName db Hs He.
  rewrite service_Aggregate_eq, Hs, He, repository_Aggregate_eq.
  split.
  - destruct (send_cases db) as [H|[msg H]]; rewrite H; cbn [fst];
      unfold service.ErrInvalidDateRange; congruence.
  - intros Hready. rewrite send_ready by assumption. cbn [fst]. eauto.
Qed.

Lemma Before_lt a b : time.Before a b = true <-> a < b.
Proof. unfold time.Before. apply Z.ltb_lt. Qed.

Lemma negb_eqb_empty s : s <> "" -> negb (s =? "")%string = true.
Proof. intros H. apply negb_true_iff. now apply String.eqb_neq. Qed.

(** C5. With a parseable start date and an end date that is empty or
    parseable, Create returns the error of an invalid date range exactly
    when the end date is given and strictly earlier than the start date;
    otherwise, when the statement goes through and the identifier is new,
    it succeeds, returns the subscription and appends it to the table. *)
Theorem Create_validates_date_range :
  forall subID serviceName price userID startDateStr endDateStr startDate endDate db,
    service.parseMonthYear startDateStr = Ok startDate ->
    (endDateStr = "" \/ service.parseMonthYear endDateStr = Ok endDate) ->
    (fst (service.Create subID serviceName price userID startDateStr endDateStr db)
       = Err service.ErrInvalidDateRange
     <-> endDateStr <> "" /\ endDate < startDate)
    /\ (endDateStr = "" \/ startDate <= endDate ->
        ready 1 db ->
        stored subID db = None ->
        let sub := {| ID := subID; ServiceName := serviceName; Price := price;
                      UserID := userID; StartDate := startDate;
                      EndDate := if (endDateStr =? "")%string then None else Some endDate |} in
        service.Create subID serviceName price userID startDateStr endDateStr db
          = (Ok sub, gorm.withRows (advance db) (gorm.rows db ++ [sub]))).
Proof.
  intros subID serviceName price userID startDateStr endDateStr startDate endDate db Hs He.
  rewrite service_Create_eq. unfold checkedDates. rewrite Hs.
  destruct (String.eqb_spec endDateStr "") as [->|Hne]; cbn [negb].
  - split.
    + rewrite Create_eq. split; [|intros [[] _]; reflexivity].
      destruct (send_cases db) as [H|[msg H]]; rewrite H;
        [destruct (existsb _ _)|]; cbn [fst]; intros [=].
    + intros _ Hready Hnew. cbv zeta. rewrite Create_eq, send_ready by assumption.
      unfold stored in Hnew. rewrite find_existsb. cbn [ID]. now rewrite Hnew.
  - destruct He as [->|He]; [contradiction|]. rewrite He.
    destruct (time.Before endDate startDate) eqn:B.
    + apply Before_lt in B. split.
      * cbn [fst]. split; [now intros _|reflexivity].
      * intros [->|Hle]; [contradiction|lia].
    + assert (Hle : startDate <= endDate).
      { unfold time.Before in B. apply Z.ltb_ge in B. exact B. }
      split.
      * rewrite Create_eq. split; [|intros [_ Hlt]; lia].
        destruct (send_cases db) as [H|[msg H]]; rewrite H;
          [destruct (existsb _ _)|]; cbn [fst]; intros [=].
      * intros _ Hready Hnew. cbv zeta. rewrite Create_eq, send_ready by assumption.
        unfold stored in Hnew. rewrite find_existsb. cbn [ID]. now rewrite Hnew.
Qed.

Lemma patched_ID sub serviceName price startDateStr endDateStr sub' :
  patched sub serviceName price startDateStr endDateStr = Ok sub' -> ID sub' = ID sub.
Proof.
  unfold patched, withServiceName, withPrice, withStartDate, withEndDate.
  destruct (negb (serviceName =? "")%string), (0 <? price),
    (negb (startDateStr =? "")%string), (negb (endDateStr =? "")%string);
    repeat match goal with
           | |- context [service.parseMonthYear ?s] => destruct (service.parseMonthYear s)
           | |- context [time.Before ?a ?b] => destruct (time.Before a b)
           end;
    cbn [StartDate]; intros [= <-]; reflexivity.
Qed.

Lemma patched_valid sub serviceName price startDateStr endDateStr sub' :
  patched sub serviceName price startDateStr endDateStr = Ok sub' ->
  endNotBeforeStart sub'.
Proof.
  unfold patched.
  set (sub1 := if negb (serviceName =? "")%string then _ else sub).
  set (sub2 := if 0 <? price then _ else sub1).
  destruct (if negb (startDateStr =? "")%string then _ else Ok sub2) as [sub3|e];
    [|intros [=]].
  destruct (negb (endDateStr =? "")%string).
  - destruct (service.parseMonthYear endDateStr) as [endDate|e]; [|intros [=]].
    destruct (time.Before endDate (StartDate sub3)) eqn:B; intros [= <-].
    unfold endNotBeforeStart, withEndDate; cbn [EndDate StartDate].
    unfold time.Before in B. now apply Z.ltb_ge in B.
  - intros [= <-]. exact I.
Qed.

Lemma patched_frame sub serviceName price startDateStr endDateStr sub' :
  patched sub serviceName price startDateStr endDateStr = Ok sub' ->
  (serviceName = "" -> ServiceName sub' = ServiceName sub)
  /\ (price <= 0 -> Price sub' = Price sub)
  /\ (startDateStr = "" -> StartDate sub' = StartDate sub).
Proof.
  unfold patched, withServiceName, withPrice, withStartDate, withEndDate.
  destruct (String.eqb_spec serviceName "") as [Hn|Hn],
           (Z.ltb_spec 0 price) as [Hp|Hp],
           (String.eqb_spec startDateStr "") as [Hs|Hs],
           (negb (endDateStr =? "")%string);
    cbn [negb];
    repeat match goal with
           | |- context [service.parseMonthYear ?s] => destruct (service.parseMonthYear s)
           | |- context [time.Before ?a ?b] => destruct (time.Before a b)
           end;
    cbn [StartDate]; intros [= <-]; cbn [ServiceName Price StartDate];
    repeat split; intros; solve [reflexivity | contradiction | lia].
Qed.

(** C7. For an existing subscription and an Update that supplies a
    parseable start date and a parseable end date, both texts non-empty, the
    date range is checked against the start date just supplied: Update
    returns the error of an invalid date range exactly when the parsed end
    date is earlier than the parsed new start date, whatever start date was
    stored. *)
Theorem Update_checks_range_against_new_start :
  forall id serviceName price startDateStr endDateStr startDate endDate db sub,
    stored id db = Some sub ->
    ready 1 db ->
    startDateStr <> "" ->
    endDateStr <> "" ->
    service.parseMonthYear startDateStr = Ok startDate ->
    service.parseMonthYear endDateStr = Ok endDate ->
    (fst (service.Update id serviceName price startDateStr endDateStr db)
       = Err service.ErrInvalidDateRange
     <-> endDate < startDate).
Proof.
  intros id serviceName price startDateStr endDateStr startDate endDate db sub
         Hsub Hready Hs He Ps Pe.
  rewrite service_Update_eq, GetByID_eq, send_ready, Hsub by assumption.
  unfold patched.
  rewrite (negb_eqb_empty startDateStr), (negb_eqb_empty endDateStr) by assumption.
  rewrite Ps, Pe.
  unfold withStartDate at 1. cbn [StartDate].
  destruct (time.Before endDate startDate) eqn:B.
  - apply Before_lt in B. cbn [fst]. split; [intros _; exact B|reflexivity].
  - assert (Hle : startDate <= endDate).
    { unfold time.Before in B. now apply Z.ltb_ge in B. }
    rewrite Update_eq.
    split; [|lia].
    destruct (send_cases (advance db)) as [H|[msg H]]; rewrite H; cbn [fst]; intros [=].
Qed.

(** C2. For an existing subscription, an Update whose end-date text is
    empty succeeds (the start-date text being empty or parseable and both
    statements going through) and the subscription it returns and stores
    has no end date, whatever the end date was and whatever the other
    fields of the request are. *)
Theorem Update_empty_end_date_clears :
  forall id serviceName price startDateStr db sub,
    stored id db = Some sub ->
    ready 2 db ->
    (startDateStr = "" \/ exists t, service.parseMonthYear startDateStr = Ok t) ->
    exists sub' db',
      service.Update id serviceName price startDateStr "" db = (Ok sub', db')
      /\ EndDate sub' = None
      /\ stored id db' = Some sub'.
Proof.
  intros id serviceName price startDateStr db sub Hsub Hready Hstart.
  rewrite service_Update_eq, GetByID_eq, (send_ready db), Hsub
    by (eapply ready_first; eassumption).
  assert (Hp : exists sub', patched sub serviceName price startDateStr "" = Ok sub'
                            /\ EndDate sub' = None).
  { unfold patched. cbn [String.eqb negb].
    destruct Hstart as [->|[t Ht]].
    - cbn [String.eqb negb]. eauto.
    - destruct (negb (startDateStr =? "")%string); [rewrite Ht|]; eauto. }
  destruct Hp as (sub' & Hp & Hend). rewrite Hp.
  rewrite Update_eq, send_ready by (now apply ready_advance).
  exists sub'. eexists. split; [reflexivity|]. split; [assumption|].
  unfold stored. cbn [gorm.withRows gorm.rows advance].
  rewrite <- (stored_ID _ _ _ Hsub), <- (patched_ID _ _ _ _ _ _ Hp).
  apply find_saved.
Qed.

(** C6. For an existing subscription and every Update request, the stored
    subscription afterwards has the service name it had when the request
    gives the empty service name, the price it had when the request gives a
    price that is zero or negative, and the start date it had when the
    request gives the empty start-date text; a successful Update returns
    that stored subscription. *)
Theorem Update_leaves_unsupplied_fields :
  forall id serviceName price startDateStr endDateStr db sub,
    stored id db = Some sub ->
    exists sub',
      stored id (snd (service.Update id serviceName price startDateStr endDateStr db))
        = Some sub'
      /\ (serviceName = "" -> ServiceName sub' = ServiceName sub)
      /\ (price <= 0 -> Price sub' = Price sub)
      /\ (startDateStr = "" -> StartDate sub' = StartDate sub)
      /\ (forall r,
            fst (service.Update id serviceName price startDateStr endDateStr db) = Ok r ->
            r = sub').
Proof.
  intros id serviceName price startDateStr endDateStr db sub Hsub.
  rewrite service_Update_eq, GetByID_eq.
  destruct (send_cases db) as [H|[msg H]]; rewrite H.
  2:{ exists sub. cbn [fst snd]. rewrite stored_advance. repeat split; auto; intros r [=]. }
  rewrite Hsub.
  destruct (patched sub serviceName price startDateStr endDateStr) as [sub'|e] eqn:Hp.
  2:{ exists sub. cbn [fst snd]. rewrite stored_advance. repeat split; auto; intros r [=]. }
  rewrite Update_eq.
  destruct (send_cases (advance db)) as [H2|[msg H2]]; rewrite H2.
  2:{ exists sub. cbn [fst snd]. rewrite !stored_advance. repeat split; auto; intros r [=]. }
  exists sub'. cbn [fst snd].
  destruct (patched_frame _ _ _ _ _ _ Hp) as (F1 & F2 & F3).
  split; [|repeat split; auto; now intros r [= <-]].
  unfold stored. cbn [gorm.withRows gorm.rows advance].
  rewrite <- (stored_ID _ _ _ Hsub), <- (patched_ID _ _ _ _ _ _ Hp).
  apply find_saved.
Qed.

Lemma checkedDates_valid startDateStr endDateStr startDate endDate :
  checkedDates startDateStr endDateStr = Ok (startDate, endDate) ->
  match endDate with
  | Some e => startDate <= e
  | None => True
  end.
Proof.
  unfold checkedDates.
  destruct (service.parseMonthYear startDateStr) as [sd|e]; [|intros [=]].
  destruct (negb (endDateStr =? "")%string).
  - destruct (service.parseMonthYear endDateStr) as [ed|e]; [|intros [=]].
    destruct (time.Before ed sd) eqn:B; intros [= <- <-].
    unfold time.Before in B. now apply Z.ltb_ge in B.
  - intros [= <- <-]. exact I.
Qed.

Lemma Forall_saved (P : Subscription -> Prop) sub l :
  Forall P l -> P sub -> Forall P (saved sub l).
Proof.
  intros Hl Hsub. unfold saved. destruct (existsb _ l).
  - apply Forall_map. eapply Forall_impl; [|exact Hl].
    intros r Hr. now destruct (gorm.hasID (ID sub) r).
  - apply Forall_app. split; [assumption|]. now constructor.
Qed.

Lemma Forall_filter (P : Subscription -> Prop) f l :
  Forall P l -> Forall P (filter f l).
Proof.
  rewrite !Forall_forall. intros H r Hr. apply filter_In in Hr. now apply H.
Qed.

Lemma service_Delete_eq id db :
  service.Delete id db =
  match gorm.send db with
  | (Ok _, db') =>
      (Ok tt, gorm.withRows db' (filter (fun r => negb (gorm.hasID id r)) (gorm.rows db)))
  | (Err e, db') => (Err e, db')
  end.
Proof.
  unfold service.Delete, bind, ret. cbn [repo_Delete SubscriptionRepository].
  unfold repository.Delete, gorm.Delete, bind.
  destruct (send_cases db) as [H|[msg H]]; rewrite H; reflexivity.
Qed.

(** Delete fails on an error of the driver only: whether a row had the
    identifier makes no difference to what it returns. *)
Lemma Delete_reports_driver_errors_only id db :
  fst (service.Delete id db) = Ok tt
  \/ exists msg, fst (service.Delete id db) = Err (driverError msg).
Proof.
  rewrite service_Delete_eq.
  destruct (send_cases db) as [H|[msg H]]; rewrite H; cbn [fst]; eauto.
Qed.

Lemma service_GetByID_eq id db : service.GetByID id db = repository.GetByID id db.
Proof.
  unfold service.GetByID, bind, ret. cbn [repo_GetByID SubscriptionRepository].
  now destruct (repository.GetByID id db) as [[sub|e] db'].
Qed.

Lemma service_List_rows userID serviceName db :
  gorm.rows (snd (service.List userID serviceName db)) = gorm.rows db.
Proof.
  unfold service.List, bind, ret. cbn [repo_List SubscriptionRepository].
  unfold repository.List, gorm.Find, bind.
  destruct (send_cases db) as [H|[msg H]]; rewrite H; reflexivity.
Qed.

Lemma service_Aggregate_rows startDateStr endDateStr userID serviceName db :
  gorm.rows (snd (service.Aggregate startDateStr endDateStr userID serviceName db))
  = gorm.rows db.
Proof.
  rewrite service_Aggregate_eq.
  destruct (service.parseMonthYear startDateStr); [|reflexivity].
  destruct (service.parseMonthYear endDateStr); [|reflexivity].
  rewrite repository_Aggregate_eq.
  destruct (send_cases db) as [H|[msg H]]; rewrite H; reflexivity.
Qed.

(** C8. A subscription that a successful Create or Update returns has an
    end date that, when set, is not earlier than its start date, and it is
    in the table; and no operation of the service, successful or not, takes
    a table whose rows all satisfy this to a table with a row that does
    not. *)
Theorem stored_end_date_not_before_start :
  forall op db,
    (forall sub,
        written op db = Some sub ->
        endNotBeforeStart sub /\ In sub (gorm.rows (after op db)))
    /\ (Forall endNotBeforeStart (gorm.rows db) ->
        Forall endNotBeforeStart (gorm.rows (after op db))).
Proof.
  intros op db.
  destruct op as [subID serviceName price userID startDateStr endDateStr
                 | id
                 | id serviceName price startDateStr endDateStr
                 | id
                 | userID serviceName
                 | startDateStr endDateStr userID serviceName];
    unfold written, after.
  - rewrite service_Create_eq.
    destruct (checkedDates startDateStr endDateStr) as [[startDate endDate]|e] eqn:Hc;
      [|split; [intros sub [=]|trivial]].
    apply checkedDates_valid in Hc. cbv zeta. rewrite Create_eq.
    destruct (send_cases db) as [H|[msg H]]; rewrite H;
      [|split; [intros sub [=]|trivial]].
    destruct (existsb _ _); [split; [intros sub [=]|trivial]|].
    cbn [fst snd gorm.withRows gorm.rows advance]. split.
    + intros sub [= <-]. split; [exact Hc|]. apply in_or_app. right. now left.
    + intros Hall. apply Forall_app. split; [assumption|]. constructor; [exact Hc|constructor].
  - split; [intros sub [=]|].
    rewrite service_GetByID_eq, GetByID_eq.
    destruct (send_cases db) as [H|[msg H]]; rewrite H; trivial.
  - rewrite service_Update_eq, GetByID_eq.
    destruct (send_cases db) as [H|[msg H]]; rewrite H;
      [|split; [intros sub [=]|trivial]].
    destruct (stored id db) as [sub0|]; [|split; [intros sub [=]|trivial]].
    destruct (patched sub0 serviceName price startDateStr endDateStr) as [sub'|e] eqn:Hp;
      [|split; [intros sub [=]|trivial]].
    apply patched_valid in Hp. rewrite Update_eq.
    destruct (send_cases (advance db)) as [H2|[msg H2]]; rewrite H2;
      [|split; [intros sub [=]|trivial]].
    cbn [fst snd gorm.withRows gorm.rows advance]. split.
    + intros sub [= <-]. split; [exact Hp|apply In_saved].
    + intros Hall. now apply Forall_saved.
  - split; [intros sub [=]|].
    rewrite service_Delete_eq.
    destruct (send_cases db) as [H|[msg H]]; rewrite H; trivial.
    cbn [snd gorm.withRows gorm.rows]. apply Forall_filter.
  - split; [intros sub [=]|]. now rewrite service_List_rows.
  - split; [intros sub [=]|]. now rewrite service_Aggregate_rows.
Qed.

(** C3, amended. The handlers map an error of the service to a status by
    endpoint: Create answers 400 to every error, Update answers 400 to
    every error that is not NotFound, so the failures of validation are
    answered 400 there; GetByID and Delete answer 404 to NotFound and 500 to
    every other error; List and Aggregate answer 500 to every error, and so
    an Aggregate with an unparseable date is answered 500. *)
Theorem status_of_a_service_error_by_endpoint :
  forall (uuid_Parse : string -> uuid.UUID * option error)
         (svc : forall A, call A -> A),
    (forall req e,
        svc _ (service_Create (create_ServiceName req) (create_Price req)
                 (create_UserID req) (create_StartDate req) (create_EndDate req)) = Err e ->
        status (respond svc (handler.Create (Ok req))) = http.StatusBadRequest)
    /\ (forall idParam id req e,
           uuid_Parse idParam = (id, None) ->
           svc _ (service_Update id (update_ServiceName req) (update_Price req)
                    (update_StartDate req) (update_EndDate req)) = Err e ->
           errors_Is e ErrRecordNotFound = false ->
           status (respond svc (handler.Update uuid_Parse idParam (Ok req)))
           = http.StatusBadRequest)
    /\ (forall idParam id e,
           uuid_Parse idParam = (id, None) ->
           svc _ (service_GetByID id) = Err e ->
           status (respond svc (handler.GetByID uuid_Parse idParam))
           = if errors_Is e ErrRecordNotFound
             then http.StatusNotFound else http.StatusInternalServerError)
    /\ (forall idParam id e,
           uuid_Parse idParam = (id, None) ->
           svc _ (service_Delete id) = Err e ->
           status (respond svc (handler.Delete uuid_Parse idParam))
           = if errors_Is e ErrRecordNotFound
             then http.StatusNotFound else http.StatusInternalServerError)
    /\ (forall userIDParam serviceName e,
           svc _ (service_List (fst (uuid_Parse userIDParam)) serviceName) = Err e ->
           status (respond svc (handler.List uuid_Parse userIDParam serviceName))
           = http.StatusInternalServerError)
    /\ (forall req e,
           svc _ (service_Aggregate (aggregate_StartDate req) (aggregate_EndDate req)
                    (aggregate_UserID req) (aggregate_ServiceName req)) = Err e ->
           status (respond svc (handler.Aggregate (Ok req)))
           = http.StatusInternalServerError)
    /\ (forall subID req e db,
           service.parseMonthYear (aggregate_StartDate req) = Err e
           \/ service.parseMonthYear (aggregate_EndDate req) = Err e ->
           status (fst (app.serve subID (handler.Aggregate (Ok req)) db))
           = http.StatusInternalServerError).
Proof.
  intros uuid_Parse svc. repeat split.
  - intros req e H. cbn. now rewrite H.
  - intros idParam id req e HP H _. unfold handler.Update. rewrite HP. cbn. now rewrite H.
  - intros idParam id e HP H. unfold handler.GetByID. rewrite HP. cbn. rewrite H.
    cbn. now destruct (errors_Is e ErrRecordNotFound).
  - intros idParam id e HP H. unfold handler.Delete. rewrite HP. cbn. rewrite H.
    cbn. now destruct (errors_Is e ErrRecordNotFound).
  - intros userIDParam serviceName e H. unfold handler.List.
    destruct (uuid_Parse userIDParam) as [userID parseErr]. cbn in *. now rewrite H.
  - intros req e H. cbn. now rewrite H.
  - intros subID req e db H. unfold handler.Aggregate, app.serve, app.perform.
    rewrite service_Aggregate_eq.
    destruct H as [H|H].
    + now rewrite H.
    + rewrite H. now destruct (service.parseMonthYear (aggregate_StartDate req)).
Qed.

(** C10, amended. A path identifier that is no UUID is rejected with 400
    by GetByID, Update and Delete before the service is called; List does
    not reject a [user_id] that is no UUID: it calls the service with the
    value the parser returned. *)
Theorem malformed_path_id_is_rejected_before_the_service :
  forall (uuid_Parse : string -> uuid.UUID * option error) idParam id err,
    uuid_Parse idParam = (id, Some err) ->
    handler.GetByID uuid_Parse idParam
      = Respond (JSON http.StatusBadRequest (H_error "invalid subscription ID"))
    /\ (forall bound,
           handler.Update uuid_Parse idParam bound
           = Respond (JSON http.StatusBadRequest (H_error "invalid subscription ID")))
    /\ handler.Delete uuid_Parse idParam
       = Respond (JSON http.StatusBadRequest (H_error "invalid subscription ID"))
    /\ (forall serviceName,
           handler.List uuid_Parse idParam serviceName
           = Invoke (service_List id serviceName) List_reply).
Proof.
  intros uuid_Parse idParam id err H.
  unfold handler.GetByID, handler.Update, handler.Delete, handler.List.
  rewrite H. repeat split.
Qed.

End Facts.

(** ** The properties at the scenario of the specification *)

Section Instances.

Import handler.

(** C1 at the scenario: September 2025 over the two rows. *)
Lemma Aggregate_window_of_September :
  exists y1 m1 y2 m2,
    (1 <= m1 <= 12 /\ time.Date 2025 9 1 0 0 0 = time.Date y1 m1 1 0 0 0)
    /\ (1 <= m2 <= 12 /\ time.Date 2025 9 1 0 0 0 = time.Date y2 m2 1 0 0 0)
    /\ let windowStart := time.Date y1 m1 1 0 0 0 in
       let windowEnd := time.Date y2 m2 (time.daysIn m2 y2) 23 59 59 in
       let matching :=
         filter (overlaps windowStart windowEnd None None) (gorm.rows sample.twoRows) in
       fst (service.Aggregate "09-2025" "09-2025" None None sample.twoRows)
         = Ok (totalPrice matching)
       /\ (matching = [] ->
           fst (service.Aggregate "09-2025" "09-2025" None None sample.twoRows) = Ok 0).
Proof.
  apply (Aggregate_sums_over_whole_month_window
           "09-2025" "09-2025" (time.Date 2025 9 1 0 0 0) (time.Date 2025 9 1 0 0 0)
           None None sample.twoRows); reflexivity.
Defined.

(** The total of the scenario: both subscriptions are active in September. *)
Lemma Aggregate_total_of_September :
  fst (service.Aggregate "09-2025" "09-2025" None None sample.twoRows) = Ok 1500
  /\ fst (service.Aggregate "07-2025" "10-2025" (Some sample.user) (Some "Netflix")
            sample.twoRows) = Ok 1000
  /\ fst (service.Aggregate "01-2024" "06-2025" None None sample.twoRows) = Ok 0.
Proof. repeat split; vm_compute; reflexivity. Qed.

(** C2 at the scenario: Netflix ends in October, an Update that names only
    a price clears the end date. *)
Lemma Update_clears_the_end_of_netflix :
  exists sub' db',
    service.Update 1%N "" 1200 "" "" sample.twoRows = (Ok sub', db')
    /\ EndDate sub' = None
    /\ stored 1%N db' = Some sub'.
Proof.
  apply (Update_empty_end_date_clears 1%N "" 1200 "" sample.twoRows sample.netflix).
  - reflexivity.
  - reflexivity.
  - left. reflexivity.
Defined.

(** C3, the claim as stated fails: an Aggregate with an unparseable date is
    answered 500, not 400. *)
Lemma Aggregate_with_unparseable_date_answers_500 :
  service.parseMonthYear "2025-07" = Err (ParseError "01-2006" "2025-07")
  /\ status (fst (app.serve 9%N (handler.Aggregate (Ok sample.badAggregate)) sample.twoRows))
     = http.StatusInternalServerError
  /\ http.StatusInternalServerError <> http.StatusBadRequest.
Proof. repeat split; vm_compute; [reflexivity..|discriminate]. Qed.

(** C3 amended at the scenario: GetByID on an identifier that names no row
    is answered 404. *)
Lemma GetByID_of_absent_id_answers_404 :
  status (respond sample.service (handler.GetByID uuid.Parse sample.absentID))
  = http.StatusNotFound.
Proof.
  destruct (status_of_a_service_error_by_endpoint uuid.Parse sample.service)
    as (_ & _ & H & _).
  exact (H sample.absentID (fst (uuid.Parse sample.absentID)) ErrRecordNotFound
           eq_refl eq_refl).
Defined.

(** What the handler of Update answers when the identifier names no row. *)
Lemma Update_of_absent_id_answers_400 :
  fst (service.Update (fst (uuid.Parse sample.absentID)) "" 1200 "" "" sample.twoRows)
  = Err ErrRecordNotFound
  /\ status (fst (app.serve 9%N
                    (handler.Update uuid.Parse sample.absentID
                       (Ok {| update_ServiceName := ""; update_Price := 1200;
                              update_StartDate := ""; update_EndDate := "" |}))
                    sample.twoRows))
     = http.StatusBadRequest.
Proof. split; vm_compute; reflexivity. Qed.

(** C4, at an identifier that names no row: the repository reports no
    error, the service succeeds and the handler answers 204; the branch of
    the handler that answers 404 is not taken. *)
Theorem Delete_of_absent_id_answers_204 :
  stored (fst (uuid.Parse sample.absentID)) sample.twoRows = None
  /\ service.Delete (fst (uuid.Parse sample.absentID)) sample.twoRows
     = (Ok tt, sample.twoRows)
  /\ status (fst (app.serve 9%N (handler.Delete uuid.Parse sample.absentID) sample.twoRows))
     = http.StatusNoContent.
Proof. repeat split; vm_compute; reflexivity. Qed.

(** C5 at the scenario: a Create whose end is before its start, and the
    Create of Netflix in an empty table. *)
Lemma Create_of_netflix :
  (fst (service.Create 1%N "Netflix" 1000 sample.user "07-2025" "10-2025" sample.noRows)
     = Err service.ErrInvalidDateRange
   <-> "10-2025" <> "" /\ time.Date 2025 10 1 0 0 0 < time.Date 2025 7 1 0 0 0)
  /\ ("10-2025" = "" \/ time.Date 2025 7 1 0 0 0 <= time.Date 2025 10 1 0 0 0 ->
      ready 1 sample.noRows ->
      stored 1%N sample.noRows = None ->
      let sub := {| ID := 1%N; ServiceName := "Netflix"; Price := 1000;
                    UserID := sample.user; StartDate := time.Date 2025 7 1 0 0 0;
                    EndDate := if ("10-2025" =? "")%string
                               then None else Some (time.Date 2025 10 1 0 0 0) |} in
      service.Create 1%N "Netflix" 1000 sample.user "07-2025" "10-2025" sample.noRows
        = (Ok sub, gorm.withRows (advance sample.noRows) (gorm.rows sample.noRows ++ [sub]))).
Proof.
  apply (Create_validates_date_range
           1%N "Netflix" 1000 sample.user "07-2025" "10-2025"
           (time.Date 2025 7 1 0 0 0) (time.Date 2025 10 1 0 0 0) sample.noRows).
  - reflexivity.
  - right. reflexivity.
Defined.

(** C6 at the scenario: an Update that names only an end date. *)
Lemma Update_of_netflix_end_only :
  exists sub',
    stored 1%N (snd (service.Update 1%N "" 0 "" "12-2025" sample.twoRows)) = Some sub'
    /\ ("" = "" -> ServiceName sub' = ServiceName sample.netflix)
    /\ (0 <= 0 -> Price sub' = Price sample.netflix)
    /\ ("" = "" -> StartDate sub' = StartDate sample.netflix)
    /\ (forall r,
          fst (service.Update 1%N "" 0 "" "12-2025" sample.twoRows) = Ok r -> r = sub').
Proof.
  apply (Update_leaves_unsupplied_fields 1%N "" 0 "" "12-2025" sample.twoRows sample.netflix).
  reflexivity.
Defined.

(** C7 at the scenario: the stored start of Netflix is July; with a new
    start in November an end in October is refused although it follows
    the stored start. *)
Lemma Update_of_netflix_start_and_end :
  fst (service.Update 1%N "" 0 "11-2025" "10-2025" sample.twoRows)
    = Err service.ErrInvalidDateRange
  <-> time.Date 2025 10 1 0 0 0 < time.Date 2025 11 1 0 0 0.
Proof.
  apply (Update_checks_range_against_new_start
           1%N "" 0 "11-2025" "10-2025"
           (time.Date 2025 11 1 0 0 0) (time.Date 2025 10 1 0 0 0)
           sample.twoRows sample.netflix);
    try reflexivity; intros H; discriminate H.
Defined.

(** C8 at the scenario: the rows after an Update of both dates of Netflix. *)
Lemma rows_after_Update_of_netflix :
  Forall endNotBeforeStart
    (gorm.rows (after (OpUpdate 1%N "" 0 "11-2025" "12-2025") sample.twoRows)).
Proof.
  apply (stored_end_date_not_before_start
           (OpUpdate 1%N "" 0 "11-2025" "12-2025") sample.twoRows).
  repeat constructor. vm_compute. intros H; discriminate H.
Defined.

(** C9 at the scenario: a window whose end is before its start. *)
Lemma Aggregate_of_reversed_window :
  fst (service.Aggregate "10-2025" "07-2025" None None sample.twoRows)
    <> Err service.ErrInvalidDateRange
  /\ (ready 1 sample.twoRows ->
      exists total,
        fst (service.Aggregate "10-2025" "07-2025" None None sample.twoRows) = Ok total).
Proof.
  apply (Aggregate_checks_no_date_order
           "10-2025" "07-2025" (time.Date 2025 10 1 0 0 0) (time.Date 2025 7 1 0 0 0)
           None None sample.twoRows); reflexivity.
Defined.

(** C10, the claim as stated fails: List with a [user_id] that is no UUID
    calls the service and answers 200. *)
Lemma List_with_malformed_user_id_reaches_the_service :
  snd (uuid.Parse "not-a-uuid") = Some (errorString "invalid UUID length")
  /\ handler.List uuid.Parse "not-a-uuid" ""
     = Invoke (service_List uuid.Nil "") List_reply
  /\ status (fst (app.serve 9%N (handler.List uuid.Parse "not-a-uuid" "") sample.twoRows))
     = http.StatusOK.
Proof. repeat split; vm_compute; reflexivity. Qed.

(** C10 amended at a path identifier that is no UUID. *)
Lemma malformed_path_id_answers_400 :
  handler.GetByID uuid.Parse "not-a-uuid"
    = Respond (JSON http.StatusBadRequest (H_error "invalid subscription ID"))
  /\ (forall bound,
         handler.Update uuid.Parse "not-a-uuid" bound
         = Respond (JSON http.StatusBadRequest (H_error "invalid subscription ID")))
  /\ handler.Delete uuid.Parse "not-a-uuid"
     = Respond (JSON http.StatusBadRequest (H_error "invalid subscription ID"))
  /\ (forall serviceName,
         handler.List uuid.Parse "not-a-uuid" serviceName
         = Invoke (service_List uuid.Nil serviceName) List_reply).
Proof.
  apply (malformed_path_id_is_rejected_before_the_service
           uuid.Parse "not-a-uuid" uuid.Nil (errorString "invalid UUID length")).
  reflexivity.
Defined.

End Instances.

(** ** Further facts: parsing, the table, the operations and the handlers *)

Section MoreFacts.

Import handler time.

Lemma digit_inj c c' : digit c = digit c' -> c = c'.
Proof.
  unfold digit. intros H.
  assert (E : nat_of_ascii c = nat_of_ascii c') by lia.
  rewrite <- (ascii_nat_embedding c), <- (ascii_nat_embedding c'). now rewrite E.
Qed.

(** Closes a goal whose premise equates a failure and a success, once the
    conditions decided so far are computed. *)
Ltac refute_result :=
  cbn [andb];
  match goal with
  | |- Err _ = Ok _ -> _ => let H := fresh in intros H; discriminate H
  end.

(** The bytes of a text that [time.Parse] accepts. *)
Lemma Parse_01_2006_shape (value : string) (t : Time) :
  Parse_01_2006 value = Ok t ->
  exists m1 m2 y1 y2 y3 y4,
    value = String m1 (String m2 (String "-" (String y1 (String y2 (String y3
              (String y4 EmptyString))))))
    /\ (0 <= digit m1 <= 9 /\ 0 <= digit m2 <= 9)
    /\ (0 <= digit y1 <= 9 /\ 0 <= digit y2 <= 9 /\ 0 <= digit y3 <= 9 /\ 0 <= digit y4 <= 9)
    /\ 1 <= digit m1 * 10 + digit m2 <= 12
    /\ t = Date (digit y1 * 1000 + digit y2 * 100 + digit y3 * 10 + digit y4)
                (digit m1 * 10 + digit m2) 1 0 0 0.
Proof.
  unfold Parse_01_2006; cbv zeta.
  destruct value as [|m1 [|m2 [|dash [|y1 [|y2 [|y3 [|y4 [|]]]]]]]]; try refute_result.
  destruct (isDigit m1) eqn:D1; [|refute_result].
  destruct (isDigit m2) eqn:D2; [|refute_result].
  destruct (Ascii.eqb_spec dash "-") as [->|]; [|refute_result].
  destruct (isDigit y1) eqn:D3; [|refute_result].
  destruct (isDigit y2) eqn:D4; [|refute_result].
  destruct (isDigit y3) eqn:D5; [|refute_result].
  destruct (isDigit y4) eqn:D6; [|refute_result].
  cbn [andb].
  destruct ((1 <=? digit m1 * 10 + digit m2) && (digit m1 * 10 + digit m2 <=? 12)) eqn:R;
    [|refute_result].
  intros H. injection H as <-.
  apply andb_true_iff in R. rewrite !Z.leb_le in R.
  apply isDigit_digit in D1, D2, D3, D4, D5, D6.
  exists m1, m2, y1, y2, y3, y4. repeat split; lia.
Qed.

(** X1. A text that parseMonthYear accepts has seven bytes and is read as
    the first day, at 00:00:00 UTC, of month [m] of year [y], with [m] in
    1..12 and [y] in 0..9999; the year and the month of the instant
    returned are [y] and [m]. *)
Theorem parseMonthYear_gives_the_first_instant_of_the_month_it_reads :
  forall dateStr t,
    service.parseMonthYear dateStr = Ok t ->
    String.length dateStr = 7%nat
    /\ exists y m,
        0 <= y <= 9999 /\ 1 <= m <= 12
        /\ t = Date y m 1 0 0 0
        /\ Year t = y /\ Month t = m.
Proof.
  intros dateStr t H. unfold service.parseMonthYear in H.
  destruct (Parse_01_2006_shape _ _ H)
    as (m1 & m2 & y1 & y2 & y3 & y4 & -> & Hm & Hy & Hr & ->).
  split; [reflexivity|].
  eexists _, _. split; [|split; [exact Hr|split; [reflexivity|]]]; [lia|].
  now apply Year_Month_of_first.
Qed.

(** X2. Two texts that parseMonthYear reads as the same instant are the
    same text. *)
Theorem parseMonthYear_reads_different_texts_as_different_months :
  forall dateStr dateStr' t,
    service.parseMonthYear dateStr = Ok t ->
    service.parseMonthYear dateStr' = Ok t ->
    dateStr = dateStr'.
Proof.
  intros dateStr dateStr' t H H'. unfold service.parseMonthYear in *.
  destruct (Parse_01_2006_shape _ _ H)
    as (m1 & m2 & y1 & y2 & y3 & y4 & -> & Hm & Hy & Hr & Ht).
  destruct (Parse_01_2006_shape _ _ H')
    as (n1 & n2 & z1 & z2 & z3 & z4 & -> & Hn & Hz & Hr' & Ht').
  pose proof (Year_Month_of_first
                (digit y1 * 1000 + digit y2 * 100 + digit y3 * 10 + digit y4) _ Hr)
    as [EY EM].
  pose proof (Year_Month_of_first
                (digit z1 * 1000 + digit z2 * 100 + digit z3 * 10 + digit z4) _ Hr')
    as [EY' EM'].
  rewrite <- Ht in EY, EM. rewrite <- Ht' in EY', EM'.
  assert (E1 : digit m1 = digit n1) by lia.
  assert (E2 : digit m2 = digit n2) by lia.
  assert (E3 : digit y1 = digit z1) by lia.
  assert (E4 : digit y2 = digit z2) by lia.
  assert (E5 : digit y3 = digit z3) by lia.
  assert (E6 : digit y4 = digit z4) by lia.
  apply digit_inj in E1, E2, E3, E4, E5, E6. now subst.
Qed.

Lemma find_app_new {A} (p : A -> bool) (y : A) (l : list A) :
  p y = true -> find p l = None -> find p (l ++ [y]) = Some y.
Proof.
  intros Hy Hl. apply find_appended; [assumption|].
  rewrite find_existsb. now rewrite Hl.
Qed.

Lemma service_Create_Ok subID serviceName price userID startDateStr endDateStr db sub db' :
  service.Create subID serviceName price userID startDateStr endDateStr db = (Ok sub, db') ->
  ID sub = subID
  /\ stored subID db = None
  /\ db' = gorm.withRows (advance db) (gorm.rows db ++ [sub]).
Proof.
  rewrite service_Create_eq.
  destruct (checkedDates startDateStr endDateStr) as [[startDate endDate]|e]; [|intros [=]].
  cbv zeta. rewrite Create_eq.
  destruct (send_cases db) as [H|[msg H]]; rewrite H; [|intros [=]].
  unfold stored. rewrite find_existsb. cbn [ID].
  destruct (find (gorm.hasID subID) (gorm.rows db)); [intros [=]|].
  intros [= <- <-]. repeat split.
Qed.

Lemma GetByID_returns_what_Create_stored :
  forall subID serviceName price userID startDateStr endDateStr db sub db',
    service.Create subID serviceName price userID startDateStr endDateStr db = (Ok sub, db') ->
    ready 1 db' ->
    service.GetByID subID db' = (Ok sub, advance db').
Proof.
  intros subID serviceName price userID startDateStr endDateStr db sub db' HC Hready.
  destruct (service_Create_Ok _ _ _ _ _ _ _ _ _ HC) as (Hid & Hnew & ->).
  rewrite service_GetByID_eq, GetByID_eq, send_ready by assumption.
  unfold stored. cbn [gorm.withRows gorm.rows advance].
  rewrite find_app_new; [reflexivity| |exact Hnew].
  now apply hasID_eq.
Qed.

(** X5. For a path identifier that parses, the handler of GetByID changes
    no row; when the lookup goes through it answers 200 with the stored
    subscription or 404 when none is stored under the identifier, and it
    answers 500 when the driver fails. *)
Theorem GetByID_answers_the_stored_row_or_404 :
  forall (uuid_Parse : string -> uuid.UUID * option error) subID idParam id db,
    uuid_Parse idParam = (id, None) ->
    gorm.rows (snd (app.serve subID (handler.GetByID uuid_Parse idParam) db)) = gorm.rows db
    /\ (ready 1 db ->
        fst (app.serve subID (handler.GetByID uuid_Parse idParam) db)
        = match stored id db with
          | Some r => JSON http.StatusOK (one r)
          | None => JSON http.StatusNotFound (H_error "subscription not found")
          end)
    /\ (forall msg rest,
           gorm.driver db = Some msg :: rest ->
           fst (app.serve subID (handler.GetByID uuid_Parse idParam) db)
           = JSON http.StatusInternalServerError (H_error "failed to get subscription")).
Proof.
  intros uuid_Parse subID idParam id db HP.
  unfold handler.GetByID. rewrite HP. unfold app.serve, app.perform.
  rewrite service_GetByID_eq, GetByID_eq. repeat split.
  - destruct (send_cases db) as [H|[msg H]]; rewrite H; reflexivity.
  - intros Hready. rewrite send_ready by assumption.
    now destruct (stored id db).
  - intros msg rest Hd. unfold gorm.send. rewrite Hd. reflexivity.
Qed.

Lemma find_filter_other id id' l :
  id' <> id ->
  find (gorm.hasID id') (filter (fun r => negb (gorm.hasID id r)) l)
  = find (gorm.hasID id') l.
Proof.
  intros Hne. induction l as [|x l IH]; [reflexivity|]. cbn [filter find].
  destruct (gorm.hasID id x) eqn:Hx; cbn [negb find].
  - destruct (gorm.hasID id' x) eqn:Hx'; [|exact IH].
    apply hasID_eq in Hx, Hx'. congruence.
  - now rewrite IH.
Qed.

Lemma find_filter_same id l :
  find (gorm.hasID id) (filter (fun r => negb (gorm.hasID id r)) l) = None.
Proof.
  induction l as [|x l IH]; [reflexivity|]. cbn [filter].
  destruct (gorm.hasID id x) eqn:Hx; cbn [negb find]; [exact IH|].
  now rewrite Hx.
Qed.

(** X9. When the statement goes through, Delete succeeds, nothing is
    stored under the identifier afterwards, what is stored under every
    other identifier is unchanged, and a GetByID of the identifier then
    returns gorm.ErrRecordNotFound. *)
Theorem Delete_removes_the_row_and_no_other :
  forall id db,
    ready 1 db ->
    fst (service.Delete id db) = Ok tt
    /\ stored id (snd (service.Delete id db)) = None
    /\ (forall id', id' <> id ->
                    stored id' (snd (service.Delete id db)) = stored id' db)
    /\ (ready 2 db ->
        fst (service.GetByID id (snd (service.Delete id db))) = Err ErrRecordNotFound).
Proof.
  intros id db Hready.
  rewrite service_Delete_eq, send_ready by assumption. cbn [fst snd].
  unfold stored. cbn [gorm.withRows gorm.rows advance].
  repeat split.
  - apply find_filter_same.
  - intros id' Hne. now apply find_filter_other.
  - intros H2. rewrite service_GetByID_eq, GetByID_eq.
    rewrite send_ready.
    + unfold stored. cbn [gorm.withRows gorm.rows fst]. now rewrite find_filter_same.
    + apply ready_advance in H2. exact H2.
Qed.

(** X10. The handler of Delete answers 400 to a path identifier that does
    not parse, without touching the database, 204 when the statement goes
    through and 500 when the driver fails; it answers 404 to no request. *)
Theorem Delete_handler_never_answers_404 :
  forall (uuid_Parse : string -> uuid.UUID * option error) subID idParam db,
    (forall id err,
        uuid_Parse idParam = (id, Some err) ->
        app.serve subID (handler.Delete uuid_Parse idParam) db
        = (JSON http.StatusBadRequest (H_error "invalid subscription ID"), db))
    /\ (forall id,
           uuid_Parse idParam = (id, None) ->
           ready 1 db ->
           fst (app.serve subID (handler.Delete uuid_Parse idParam) db)
           = {| status := http.StatusNoContent; payload := empty |})
    /\ (forall id msg rest,
           uuid_Parse idParam = (id, None) ->
           gorm.driver db = Some msg :: rest ->
           fst (app.serve subID (handler.Delete uuid_Parse idParam) db)
           = JSON http.StatusInternalServerError (H_error "failed to delete subscription"))
    /\ status (fst (app.serve subID (handler.Delete uuid_Parse idParam) db))
       <> http.StatusNotFound.
Proof.
  intros uuid_Parse subID idParam db. unfold handler.Delete.
  destruct (uuid_Parse idParam) as [id [err|]] eqn:HP.
  - repeat split; intros; discriminate.
  - unfold app.serve, app.perform. rewrite service_Delete_eq.
    split; [intros; discriminate|]. split; [|split].
    + intros id0 _ Hready. now rewrite send_ready.
    + intros id0 msg rest _ Hd. unfold gorm.send. rewrite Hd. reflexivity.
    + destruct (send_cases db) as [H|[msg H]]; rewrite H; cbn; discriminate.
Qed.

(** X6. An Update of an identifier under which nothing is stored returns
    gorm.ErrRecordNotFound after the lookup and stores nothing: it never
    inserts; the handler answers 400 with that error. *)
Theorem Update_of_absent_id_stores_nothing :
  forall (uuid_Parse : string -> uuid.UUID * option error)
         subID idParam id req db,
    stored id db = None ->
    ready 1 db ->
    service.Update id (update_ServiceName req) (update_Price req)
      (update_StartDate req) (update_EndDate req) db
    = (Err ErrRecordNotFound, advance db)
    /\ (uuid_Parse idParam = (id, None) ->
        app.serve subID (handler.Update uuid_Parse idParam (Ok req)) db
        = (JSON http.StatusBadRequest (H_errorOf ErrRecordNotFound), advance db)).
Proof.
  intros uuid_Parse subID idParam id req db Hnone Hready.
  assert (E : service.Update id (update_ServiceName req) (update_Price req)
                (update_StartDate req) (update_EndDate req) db
              = (Err ErrRecordNotFound, advance db)).
  { rewrite service_Update_eq, GetByID_eq, send_ready, Hnone by assumption. reflexivity. }
  split; [exact E|].
  intros HP. unfold handler.Update. rewrite HP. unfold app.serve, app.perform.
  now rewrite E.
Qed.

Lemma patched_UserID sub serviceName price startDateStr endDateStr sub' :
  patched sub serviceName price startDateStr endDateStr = Ok sub' ->
  UserID sub' = UserID sub.
Proof.
  unfold patched, withServiceName, withPrice, withStartDate, withEndDate.
  destruct (negb (serviceName =? "")%string), (0 <? price),
    (negb (startDateStr =? "")%string), (negb (endDateStr =? "")%string);
    repeat match goal with
           | |- context [service.parseMonthYear ?s] => destruct (service.parseMonthYear s)
           | |- context [time.Before ?a ?b] => destruct (time.Before a b)
           end;
    cbn [StartDate]; intros [= <-]; reflexivity.
Qed.

Lemma map_ID_saved sub l :
  existsb (gorm.hasID (ID sub)) l = true ->
  map ID (saved sub l) = map ID l.
Proof.
  intros E. unfold saved. rewrite E. rewrite map_map. apply map_ext_in.
  intros r _. destruct (gorm.hasID (ID sub) r) eqn:H; [|reflexivity].
  apply hasID_eq in H. now symmetry.
Qed.

Lemma find_saved_other sub id' l :
  id' <> ID sub ->
  existsb (gorm.hasID (ID sub)) l = true ->
  find (gorm.hasID id') (saved sub l) = find (gorm.hasID id') l.
Proof.
  intros Hne E. unfold saved. rewrite E. clear E.
  induction l as [|x l IH]; [reflexivity|]. cbn [map find].
  destruct (gorm.hasID (ID sub) x) eqn:Hx.
  - destruct (gorm.hasID id' sub) eqn:Hs; [apply hasID_eq in Hs; congruence|].
    destruct (gorm.hasID id' x) eqn:Hx'; [|exact IH].
    apply hasID_eq in Hx, Hx'. congruence.
  - now rewrite IH.
Qed.

(** X7. Whatever the request and the outcome, Update leaves the
    identifiers of the rows as they are, in their order, and leaves what is
    stored under every other identifier unchanged; the subscription a
    successful Update returns has the identifier asked for and the user of
    the subscription that was stored. *)
Theorem Update_keeps_identifiers_owner_and_other_rows :
  forall id serviceName price startDateStr endDateStr db,
    map ID (gorm.rows (snd (service.Update id serviceName price startDateStr endDateStr db)))
    = map ID (gorm.rows db)
    /\ (forall id',
           id' <> id ->
           stored id' (snd (service.Update id serviceName price startDateStr endDateStr db))
           = stored id' db)
    /\ (forall sub,
           fst (service.Update id serviceName price startDateStr endDateStr db) = Ok sub ->
           exists old, stored id db = Some old /\ ID sub = id /\ UserID sub = UserID old).
Proof.
  intros id serviceName price startDateStr endDateStr db.
  rewrite service_Update_eq, GetByID_eq.
  destruct (send_cases db) as [H|[msg H]]; rewrite H;
    [|repeat split; intros; discriminate].
  destruct (stored id db) as [old|] eqn:Hold;
    [|repeat split; intros; discriminate].
  destruct (patched old serviceName price startDateStr endDateStr) as [sub'|e] eqn:Hp;
    [|repeat split; intros; discriminate].
  rewrite Update_eq.
  destruct (send_cases (advance db)) as [H2|[msg H2]]; rewrite H2;
    [|repeat split; intros; discriminate].
  cbn [fst snd gorm.withRows gorm.rows advance].
  pose proof (patched_ID _ _ _ _ _ _ Hp) as Hid.
  pose proof (stored_ID _ _ _ Hold) as Hid0.
  assert (E : existsb (gorm.hasID (ID sub')) (gorm.rows db) = true).
  { rewrite find_existsb, Hid, Hid0. unfold stored in Hold. now rewrite Hold. }
  split; [now apply map_ID_saved|]. split.
  - intros id' Hne. unfold stored. cbn [gorm.rows].
    apply find_saved_other; [congruence|exact E].
  - intros sub [= <-]. exists old. repeat split; [congruence|].
    eapply patched_UserID; eassumption.
Qed.

Lemma selected_listed userID serviceName l :
  gorm.selected
    (let query : gorm.Query := [] in
     let query :=
       if negb (uuid.eqb userID uuid.Nil)
       then gorm.Where (fun r => uuid.eqb (UserID r) userID) query
       else query in
     if negb (serviceName =? "")%string
     then gorm.Where (fun r => (ServiceName r =? serviceName)%string) query
     else query) l
  = filter (listed userID serviceName) l.
Proof.
  unfold gorm.selected. apply filter_ext. intros r. unfold listed, gorm.Where.
  destruct (uuid.eqb userID uuid.Nil), (serviceName =? "")%string;
    cbn [negb app forallb orb andb]; rewrite ?andb_true_r; reflexivity.
Qed.

Lemma service_List_eq userID serviceName db :
  service.List userID serviceName db =
  match gorm.send db with
  | (Ok _, db') => (Ok (filter (listed userID serviceName) (gorm.rows db)), db')
  | (Err e, db') => (Err e, db')
  end.
Proof.
  unfold service.List, bind, ret. cbn [repo_List SubscriptionRepository].
  unfold repository.List, gorm.Find, bind.
  destruct (send_cases db) as [H|[msg H]]; rewrite H; [|reflexivity].
  cbn [advance gorm.rows]. now rewrite (selected_listed userID serviceName).
Qed.

(** X11. When the query goes through, List returns, in the order of the
    table, exactly the rows whose user is [userID], or any user when
    [userID] is the nil identifier, and whose service name is
    [serviceName], or any name when [serviceName] is empty; with the nil
    identifier and the empty name it returns every row. *)
Theorem List_returns_the_rows_that_pass_the_filters :
  forall userID serviceName db,
    ready 1 db ->
    exists subs,
      service.List userID serviceName db = (Ok subs, advance db)
      /\ (forall r,
             In r subs <->
             In r (gorm.rows db)
             /\ (userID = uuid.Nil \/ UserID r = userID)
             /\ (serviceName = "" \/ ServiceName r = serviceName))
      /\ (userID = uuid.Nil -> serviceName = "" -> subs = gorm.rows db)
      /\ subs = filter (listed userID serviceName) (gorm.rows db).
Proof.
  intros userID serviceName db Hready.
  exists (filter (listed userID serviceName) (gorm.rows db)).
  rewrite service_List_eq, send_ready by assumption.
  split; [reflexivity|]. split; [|split; [|reflexivity]].
  - intros r. rewrite filter_In. unfold listed, uuid.eqb.
    rewrite andb_true_iff, !orb_true_iff, !N.eqb_eq, !String.eqb_eq. tauto.
  - intros -> ->.
    induction (gorm.rows db) as [|x l IH]; [reflexivity|].
    cbn [filter]. replace (listed uuid.Nil "" x) with true by reflexivity.
    now rewrite IH.
Qed.

(** X12. An operation of the service that returns an error, and GetByID,
    List and Aggregate whatever they return, leave the rows of the table as
    they were. *)
Theorem failed_operation_and_read_change_no_row :
  forall op db,
    succeeds op db = false \/ readsOnly op = true ->
    gorm.rows (after op db) = gorm.rows db.
Proof.
  intros op db.
  destruct op as [subID serviceName price userID startDateStr endDateStr
                 | id
                 | id serviceName price startDateStr endDateStr
                 | id
                 | userID serviceName
                 | startDateStr endDateStr userID serviceName];
    unfold succeeds, after, readsOnly.
  - rewrite service_Create_eq.
    destruct (checkedDates startDateStr endDateStr) as [[startDate endDate]|e];
      [|reflexivity].
    cbv zeta. rewrite Create_eq.
    destruct (send_cases db) as [H|[msg H]]; rewrite H; [|reflexivity].
    destruct (existsb _ _); [reflexivity|].
    cbn [fst isOk]. intros [?|?]; discriminate.
  - intros _. rewrite service_GetByID_eq, GetByID_eq.
    destruct (send_cases db) as [H|[msg H]]; rewrite H; reflexivity.
  - rewrite service_Update_eq, GetByID_eq.
    destruct (send_cases db) as [H|[msg H]]; rewrite H; [|reflexivity].
    destruct (stored id db) as [old|]; [|reflexivity].
    destruct (patched old serviceName price startDateStr endDateStr) as [sub'|e];
      [|reflexivity].
    rewrite Update_eq.
    destruct (send_cases (advance db)) as [H2|[msg H2]]; rewrite H2; [|reflexivity].
    cbn [fst isOk]. intros [?|?]; discriminate.
  - rewrite service_Delete_eq.
    destruct (send_cases db) as [H|[msg H]]; rewrite H; [|reflexivity].
    cbn [fst isOk]. intros [?|?]; discriminate.
  - intros _. apply service_List_rows.
  - intros _. apply service_Aggregate_rows.
Qed.

Lemma Forall_rows_after (P : Subscription -> Prop) op db :
  (forall sub, written op db = Some sub -> P sub) ->
  Forall P (gorm.rows db) -> Forall P (gorm.rows (after op db)).
Proof.
  intros Hw Hall.
  destruct op as [subID serviceName price userID startDateStr endDateStr
                 | id
                 | id serviceName price startDateStr endDateStr
                 | id
                 | userID serviceName
                 | startDateStr endDateStr userID serviceName];
    unfold written, after in *.
  - revert Hw. rewrite service_Create_eq.
    destruct (checkedDates startDateStr endDateStr) as [[startDate endDate]|e];
      [|trivial].
    cbv zeta. rewrite Create_eq.
    destruct (send_cases db) as [H|[msg H]]; rewrite H; [|trivial].
    destruct (existsb _ _); [trivial|].
    cbn [fst snd gorm.withRows gorm.rows]. intros Hw.
    apply Forall_app. split; [assumption|]. constructor; [now apply Hw|constructor].
  - rewrite service_GetByID_eq, GetByID_eq.
    destruct (send_cases db) as [H|[msg H]]; rewrite H; trivial.
  - revert Hw. rewrite service_Update_eq, GetByID_eq.
    destruct (send_cases db) as [H|[msg H]]; rewrite H; [|trivial].
    destruct (stored id db) as [old|]; [|trivial].
    destruct (patched old serviceName price startDateStr endDateStr) as [sub'|e];
      [|trivial].
    rewrite Update_eq.
    destruct (send_cases (advance db)) as [H2|[msg H2]]; rewrite H2; [|trivial].
    cbn [fst snd gorm.withRows gorm.rows]. intros Hw.
    apply Forall_saved; [assumption|now apply Hw].
  - rewrite service_Delete_eq.
    destruct (send_cases db) as [H|[msg H]]; rewrite H; trivial.
    cbn [snd gorm.withRows gorm.rows]. now apply Forall_filter.
  - now rewrite service_List_rows.
  - now rewrite service_Aggregate_rows.
Qed.

Lemma written_Update_inv id serviceName price startDateStr endDateStr db sub :
  written (OpUpdate id serviceName price startDateStr endDateStr) db = Some sub ->
  exists old,
    stored id db = Some old
    /\ patched old serviceName price startDateStr endDateStr = Ok sub.
Proof.
  unfold written. rewrite service_Update_eq, GetByID_eq.
  destruct (send_cases db) as [H|[msg H]]; rewrite H; [|intros [=]].
  destruct (stored id db) as [old|]; [|intros [=]].
  destruct (patched old serviceName price startDateStr endDateStr) as [sub'|e] eqn:Hp;
    [|intros [=]].
  rewrite Update_eq.
  destruct (send_cases (advance db)) as [H2|[msg H2]]; rewrite H2; intros [= <-].
  eauto.
Qed.

Lemma written_Create_inv subID serviceName price userID startDateStr endDateStr db sub :
  written (OpCreate subID serviceName price userID startDateStr endDateStr) db = Some sub ->
  exists startDate endDate,
    checkedDates startDateStr endDateStr = Ok (startDate, endDate)
    /\ sub = {| ID := subID; ServiceName := serviceName; Price := price;
                UserID := userID; StartDate := startDate; EndDate := endDate |}.
Proof.
  unfold written. rewrite service_Create_eq.
  destruct (checkedDates startDateStr endDateStr) as [[startDate endDate]|e]; [|intros [=]].
  cbv zeta. rewrite Create_eq.
  destruct (send_cases db) as [H|[msg H]]; rewrite H; [|intros [=]].
  destruct (existsb _ _); intros [= <-]. eauto.
Qed.

Lemma patched_Price old serviceName price startDateStr endDateStr sub :
  patched old serviceName price startDateStr endDateStr = Ok sub ->
  Price sub = if 0 <? price then price else Price old.
Proof.
  unfold patched, withServiceName, withPrice, withStartDate, withEndDate.
  destruct (negb (serviceName =? "")%string), (0 <? price),
    (negb (startDateStr =? "")%string), (negb (endDateStr =? "")%string);
    repeat match goal with
           | |- context [service.parseMonthYear ?s] => destruct (service.parseMonthYear s)
           | |- context [time.Before ?a ?b] => destruct (time.Before a b)
           end;
    cbn [StartDate]; intros [= <-]; reflexivity.
Qed.

(** X14. When a Create is given a positive price, every operation takes a
    table whose prices are all positive to such a table: an Update stores a
    price only when it is positive. *)
Theorem prices_stay_positive :
  forall op db,
    givesPositivePrice op ->
    Forall (fun r => 0 < Price r) (gorm.rows db) ->
    Forall (fun r => 0 < Price r) (gorm.rows (after op db)).
Proof.
  intros op db Hop Hall. apply Forall_rows_after; [|assumption].
  intros sub Hw. destruct op; try discriminate Hw.
  - apply written_Create_inv in Hw. destruct Hw as (sd & ed & _ & ->). exact Hop.
  - apply written_Update_inv in Hw. destruct Hw as (old & Hold & Hp).
    rewrite (patched_Price _ _ _ _ _ _ Hp).
    destruct (Z.ltb_spec 0 price); [assumption|].
    rewrite Forall_forall in Hall. apply Hall.
    unfold stored in Hold. now apply find_some in Hold.
Qed.

Lemma parse_monthStart s t : service.parseMonthYear s = Ok t -> monthStart t.
Proof.
  intros H. destruct (Parse_01_2006_Ok _ _ H) as (y & m & _ & Hm & ->).
  exists y, m. now split.
Qed.

Lemma checkedDates_aligned startDateStr endDateStr startDate endDate :
  checkedDates startDateStr endDateStr = Ok (startDate, endDate) ->
  monthStart startDate
  /\ match endDate with Some e => monthStart e | None => True end.
Proof.
  unfold checkedDates.
  destruct (service.parseMonthYear startDateStr) as [sd|e] eqn:Hs; [|intros [=]].
  apply parse_monthStart in Hs.
  destruct (negb (endDateStr =? "")%string).
  - destruct (service.parseMonthYear endDateStr) as [ed|e] eqn:He; [|intros [=]].
    apply parse_monthStart in He.
    destruct (time.Before ed sd); intros [= <- <-]. now split.
  - intros [= <- <-]. now split.
Qed.

Lemma patched_aligned old serviceName price startDateStr endDateStr sub :
  patched old serviceName price startDateStr endDateStr = Ok sub ->
  monthStart (StartDate old) -> monthAligned sub.
Proof.
  intros Hp Hold.
  unfold patched, withServiceName, withPrice, withStartDate, withEndDate in Hp.
  destruct (negb (serviceName =? "")%string), (0 <? price),
    (negb (startDateStr =? "")%string), (negb (endDateStr =? "")%string);
    repeat match type of Hp with
           | context [service.parseMonthYear ?s] =>
               let E := fresh "E" in
               destruct (service.parseMonthYear s) eqn:E;
               [apply parse_monthStart in E|]
           | context [time.Before ?a ?b] => destruct (time.Before a b)
           end;
    cbn [StartDate] in Hp; try discriminate Hp;
    injection Hp as <-; split; cbn [StartDate EndDate]; assumption || exact I.
Qed.

(** X15. Every operation takes a table whose start and end dates are all
    first instants of a month to such a table, and the subscription a
    successful Create or Update returns has such dates. *)
Theorem dates_stay_first_of_month :
  forall op db,
    Forall monthAligned (gorm.rows db) ->
    Forall monthAligned (gorm.rows (after op db))
    /\ (forall sub, written op db = Some sub -> monthAligned sub).
Proof.
  intros op db Hall.
  assert (Hw : forall sub, written op db = Some sub -> monthAligned sub).
  { intros sub Hw. destruct op; try discriminate Hw.
    - apply written_Create_inv in Hw. destruct Hw as (sd & ed & Hc & ->).
      apply checkedDates_aligned in Hc. exact Hc.
    - apply written_Update_inv in Hw. destruct Hw as (old & Hold & Hp).
      apply (patched_aligned _ _ _ _ _ _ Hp).
      rewrite Forall_forall in Hall.
      unfold stored in Hold. apply find_some in Hold. now apply Hall. }
  split; [|exact Hw]. now apply Forall_rows_after.
Qed.

(** X4. When the handler of Create answers 201 with a subscription, the
    subscription has the identifier drawn, it is a row of the table, and
    the handler of GetByID asked for that identifier answers 200 with the
    same subscription (the lookup going through). *)
Theorem GetByID_serves_what_Create_answered :
  forall (uuid_Parse : string -> uuid.UUID * option error)
         subID subID' req db sub db' idParam,
    app.serve subID (handler.Create (Ok req)) db = (JSON http.StatusCreated (one sub), db') ->
    uuid_Parse idParam = (ID sub, None) ->
    ready 1 db' ->
    ID sub = subID
    /\ In sub (gorm.rows db')
    /\ fst (app.serve subID' (handler.GetByID uuid_Parse idParam) db')
       = JSON http.StatusOK (one sub).
Proof.
  intros uuid_Parse subID subID' req db sub db' idParam HC HP Hready.
  unfold handler.Create, app.serve, app.perform in HC.
  destruct (service.Create subID (create_ServiceName req) (create_Price req)
              (create_UserID req) (create_StartDate req) (create_EndDate req) db)
    as [[sub0|e] db0] eqn:E; [|discriminate HC].
  injection HC as <- <-.
  destruct (service_Create_Ok _ _ _ _ _ _ _ _ _ E) as (Hid & Hnew & ->).
  split; [exact Hid|]. split.
  - cbn [gorm.withRows gorm.rows]. apply in_or_app. right. now left.
  - unfold handler.GetByID. rewrite HP. unfold app.serve, app.perform.
    rewrite service_GetByID_eq, GetByID_eq, send_ready by assumption.
    unfold stored. cbn [gorm.withRows gorm.rows advance fst].
    rewrite find_app_new; [reflexivity| |].
    + now apply hasID_eq.
    + rewrite Hid. exact Hnew.
Qed.

Lemma find_app_old {A} (p : A -> bool) (x y : A) (l : list A) :
  find p l = Some x -> find p (l ++ [y]) = Some x.
Proof.
  induction l as [|a l IH]; cbn; [discriminate|].
  destruct (p a); [trivial|exact IH].
Qed.

(** X3. Create never replaces a stored subscription: what was stored
    under an identifier is stored under it afterwards, and a Create that
    draws the identifier of a stored subscription fails. *)
Theorem Create_keeps_the_stored_subscriptions :
  forall subID serviceName price userID startDateStr endDateStr db id r,
    stored id db = Some r ->
    stored id (snd (service.Create subID serviceName price userID startDateStr endDateStr db))
    = Some r
    /\ (id = subID ->
        exists e,
          fst (service.Create subID serviceName price userID startDateStr endDateStr db)
          = Err e).
Proof.
  intros subID serviceName price userID startDateStr endDateStr db id r Hr.
  rewrite service_Create_eq.
  destruct (checkedDates startDateStr endDateStr) as [[startDate endDate]|e];
    [|split; [exact Hr|intros _; eexists; reflexivity]].
  cbv zeta. rewrite Create_eq.
  destruct (send_cases db) as [H|[msg H]]; rewrite H; [|split; [exact Hr|intros _; eexists; reflexivity]].
  rewrite find_existsb. cbn [ID]. fold (stored subID db).
  destruct (stored subID db) as [r0|] eqn:E; [split; [exact Hr|intros _; eexists; reflexivity]|].
  cbn [fst snd]. split.
  - unfold stored. cbn [gorm.withRows gorm.rows]. now apply find_app_old.
  - intros ->. congruence.
Qed.

Lemma leapsBefore_mono a b : a <= b -> leapsBefore a <= leapsBefore b.
Proof.
  intros H. unfold leapsBefore. Z.div_mod_to_equations. lia.
Qed.

Lemma daysSinceEpoch_lt y y' : y < y' -> daysSinceEpoch y + 365 <= daysSinceEpoch y'.
Proof.
  intros H. unfold daysSinceEpoch.
  pose proof (leapsBefore_mono y y' ltac:(lia)). lia.
Qed.

(** The day number of the first of a month within its year. *)
Lemma dayOfYear_bounds y m :
  1 <= m <= 12 ->
  0 <= daysBefore m + (if isLeap y && (3 <=? m) then 1 else 0) <= 335.
Proof.
  intros Hm.
  assert (C : m = 1 \/ m = 2 \/ m = 3 \/ m = 4 \/ m = 5 \/ m = 6 \/ m = 7 \/ m = 8
              \/ m = 9 \/ m = 10 \/ m = 11 \/ m = 12) by lia.
  destruct C as [-> | [-> | [-> | [-> | [-> | [-> | [-> | [-> | [-> | [-> | [-> | ->]]]]]]]]]]];
    destruct (isLeap y); cbn; lia.
Qed.

Lemma dayOfYear_lt y m m' :
  1 <= m <= 12 -> 1 <= m' <= 12 -> m < m' ->
  daysBefore m + (if isLeap y && (3 <=? m) then 1 else 0)
  < daysBefore m' + (if isLeap y && (3 <=? m') then 1 else 0).
Proof.
  intros Hm Hm' Hlt.
  assert (C : m = 1 \/ m = 2 \/ m = 3 \/ m = 4 \/ m = 5 \/ m = 6 \/ m = 7 \/ m = 8
              \/ m = 9 \/ m = 10 \/ m = 11 \/ m = 12) by lia.
  assert (C' : m' = 1 \/ m' = 2 \/ m' = 3 \/ m' = 4 \/ m' = 5 \/ m' = 6 \/ m' = 7 \/ m' = 8
              \/ m' = 9 \/ m' = 10 \/ m' = 11 \/ m' = 12) by lia.
  destruct (isLeap y);
  destruct C as [-> | [-> | [-> | [-> | [-> | [-> | [-> | [-> | [-> | [-> | [-> | ->]]]]]]]]]]];
  destruct C' as [-> | [-> | [-> | [-> | [-> | [-> | [-> | [-> | [-> | [-> | [-> | ->]]]]]]]]]]];
    try lia; cbn; lia.
Qed.

Lemma monthStart_lt y m y' m' :
  1 <= m <= 12 -> 1 <= m' <= 12 ->
  monthIndex y m < monthIndex y' m' ->
  Date y m 1 0 0 0 < Date y' m' 1 0 0 0.
Proof.
  intros Hm Hm' Hlt. unfold monthIndex in Hlt.
  rewrite !Date_in_year by assumption.
  assert (C : y < y' \/ (y = y' /\ m < m')) by lia.
  destruct C as [Hy|[-> Hmm]].
  - pose proof (daysSinceEpoch_lt y y' Hy).
    pose proof (dayOfYear_bounds y m Hm). pose proof (dayOfYear_bounds y' m' Hm'). lia.
  - pose proof (dayOfYear_lt y' m m' Hm Hm' Hmm). lia.
Qed.

Lemma monthStart_lt_iff y m y' m' :
  1 <= m <= 12 -> 1 <= m' <= 12 ->
  (Date y m 1 0 0 0 < Date y' m' 1 0 0 0 <-> monthIndex y m < monthIndex y' m').
Proof.
  intros Hm Hm'. split; [|now apply monthStart_lt].
  intros Hlt.
  destruct (Z.lt_trichotomy (monthIndex y m) (monthIndex y' m')) as [H|[H|H]];
    [assumption| |].
  - unfold monthIndex in H. assert (y = y' /\ m = m') as [-> ->] by lia. lia.
  - pose proof (monthStart_lt y' m' y m Hm' Hm H). lia.
Qed.

Lemma monthStart_le_iff y m y' m' :
  1 <= m <= 12 -> 1 <= m' <= 12 ->
  (Date y m 1 0 0 0 <= Date y' m' 1 0 0 0 <-> monthIndex y m <= monthIndex y' m').
Proof.
  intros Hm Hm'.
  pose proof (monthStart_lt_iff y' m' y m Hm' Hm). lia.
Qed.

(** The first instant of the month after month [m] of year [y]. *)
Lemma next_monthStart y m :
  1 <= m <= 12 ->
  exists y' m', 1 <= m' <= 12
                /\ monthIndex y' m' = monthIndex y m + 1
                /\ Date y (m + 1) 1 0 0 0 = Date y' m' 1 0 0 0.
Proof.
  intros Hm. destruct (Z.eq_dec m 12) as [->|Hne].
  - exists (y + 1), 1. unfold monthIndex. repeat split; try lia.
    apply Date_month_13.
  - exists y, (m + 1). unfold monthIndex. repeat split; lia.
Qed.

Lemma monthStart_le_monthEnd y m y' m' :
  1 <= m <= 12 -> 1 <= m' <= 12 ->
  (Date y m 1 0 0 0 <= Date y' (m' + 1) 0 23 59 59 <-> monthIndex y m <= monthIndex y' m').
Proof.
  intros Hm Hm'. rewrite Date_last_day, Date_last_second by assumption.
  destruct (next_monthStart y' m' Hm') as (y2 & m2 & Hm2 & Hidx & ->).
  pose proof (monthStart_lt_iff y m y2 m2 Hm Hm2). lia.
Qed.

Lemma monthOf_first y m : 1 <= m <= 12 -> monthOf (Date y m 1 0 0 0) = monthIndex y m.
Proof.
  intros Hm. unfold monthOf. now destruct (Year_Month_of_first y m Hm) as [-> ->].
Qed.

Lemma overlaps_by_month y1 m1 y2 m2 userID serviceName r :
  1 <= m1 <= 12 -> 1 <= m2 <= 12 ->
  monthAligned r ->
  overlaps (Date y1 m1 1 0 0 0) (Date y2 (m2 + 1) 0 23 59 59) userID serviceName r
  = monthsOverlap (Date y1 m1 1 0 0 0) (Date y2 m2 1 0 0 0) r && passes userID serviceName r.
Proof.
  intros Hm1 Hm2 [(ys & ms & Hms & Hs) He].
  unfold overlaps, monthsOverlap, passes. rewrite Hs.
  rewrite !monthOf_first by assumption.
  rewrite <- !andb_assoc. f_equal.
  - apply eq_true_iff_eq. rewrite !Z.leb_le. now apply monthStart_le_monthEnd.
  - f_equal. destruct (EndDate r) as [e|]; [|reflexivity].
    destruct He as (ye & me & Hme & ->). rewrite monthOf_first by assumption.
    apply eq_true_iff_eq. rewrite !Z.leb_le. now apply monthStart_le_iff.
Qed.

(** X17. Over a table whose dates are first instants of a month, and when
    the query goes through, Aggregate returns the sum of the prices of the
    rows that pass the filters, start in a month not after the end month
    asked for and end in a month not before the start month asked for or
    have no end. *)
Theorem Aggregate_counts_the_subscriptions_of_the_months :
  forall startDateStr endDateStr startDate endDate userID serviceName db,
    service.parseMonthYear startDateStr = Ok startDate ->
    service.parseMonthYear endDateStr = Ok endDate ->
    ready 1 db ->
    Forall monthAligned (gorm.rows db) ->
    fst (service.Aggregate startDateStr endDateStr userID serviceName db)
    = Ok (totalPrice
            (filter (fun r => monthsOverlap startDate endDate r
                              && passes userID serviceName r)
                    (gorm.rows db))).
Proof.
  intros startDateStr endDateStr startDate endDate userID serviceName db Hs He Hready Hall.
  rewrite service_Aggregate_eq, Hs, He.
  destruct (Parse_01_2006_Ok _ _ Hs) as (y1 & m1 & _ & Hm1 & ->).
  destruct (Parse_01_2006_Ok _ _ He) as (y2 & m2 & _ & Hm2 & ->).
  destruct (Year_Month_of_first y1 m1 Hm1) as [-> ->].
  destruct (Year_Month_of_first y2 m2 Hm2) as [-> ->].
  rewrite repository_Aggregate_eq, send_ready by assumption. cbn [fst].
  do 2 f_equal. apply filter_ext_in. intros r Hr.
  apply overlaps_by_month; try assumption.
  rewrite Forall_forall in Hall. now apply Hall.
Qed.

(** X16. For parseable dates, the service asks the repository for the
    window from the parsed start date itself to the second before the first
    instant of the month after the end month; after December that month is
    January of the next year. *)
Theorem Aggregate_window_ends_the_second_before_the_next_month :
  forall startDateStr endDateStr startDate endDate userID serviceName db,
    service.parseMonthYear startDateStr = Ok startDate ->
    service.parseMonthYear endDateStr = Ok endDate ->
    service.Aggregate startDateStr endDateStr userID serviceName db
    = repository.Aggregate
        startDate
        (Date (Year endDate) (Month endDate + 1) 1 0 0 0 - 1)
        userID serviceName db
    /\ (Month endDate = 12 ->
        Date (Year endDate) (Month endDate + 1) 1 0 0 0
        = Date (Year endDate + 1) 1 1 0 0 0)
    /\ endDate < Date (Year endDate) (Month endDate + 1) 1 0 0 0.
Proof.
  intros startDateStr endDateStr startDate endDate userID serviceName db Hs He.
  rewrite service_Aggregate_eq, Hs, He.
  destruct (Parse_01_2006_Ok _ _ Hs) as (y1 & m1 & _ & Hm1 & ->).
  destruct (Parse_01_2006_Ok _ _ He) as (y2 & m2 & _ & Hm2 & ->).
  destruct (Year_Month_of_first y1 m1 Hm1) as [-> ->].
  destruct (Year_Month_of_first y2 m2 Hm2) as [-> ->].
  split; [|split].
  - now rewrite Date_last_day, Date_last_second.
  - intros ->. apply Date_month_13.
  - destruct (next_monthStart y2 m2 Hm2) as (y3 & m3 & Hm3 & Hidx & ->).
    apply monthStart_lt; [assumption..|lia].
Qed.

Lemma totalPrice_nonneg l :
  Forall (fun r => 0 < Price r) l -> 0 <= totalPrice l.
Proof.
  induction 1 as [|x l Hx _ IH]; cbn; [lia|]. unfold totalPrice in IH. lia.
Qed.

Lemma totalPrice_member l r :
  Forall (fun r => 0 < Price r) l -> In r l -> Price r <= totalPrice l.
Proof.
  intros Hall. induction Hall as [|x l Hx Hl IH]; intros Hin; [contradiction|].
  pose proof (totalPrice_nonneg l Hl) as Hn. unfold totalPrice in *. cbn.
  destruct Hin as [->|Hin]; [lia|]. specialize (IH Hin). lia.
Qed.

Lemma totalPrice_filter_le (p q : Subscription -> bool) l :
  Forall (fun r => 0 < Price r) l ->
  (forall r, In r l -> p r = true -> q r = true) ->
  totalPrice (filter p l) <= totalPrice (filter q l).
Proof.
  intros Hall. induction Hall as [|x l Hx Hl IH]; intros Himp; [cbn; lia|].
  assert (IH' : totalPrice (filter p l) <= totalPrice (filter q l)).
  { apply IH. intros r Hr. apply Himp. now right. }
  cbn [filter]. specialize (Himp x (or_introl eq_refl)).
  unfold totalPrice in *.
  destruct (p x), (q x); cbn; try lia.
Qed.

Lemma filter_none {A} (p : A -> bool) l :
  (forall r, In r l -> p r = false) -> filter p l = [].
Proof.
  induction l as [|x l IH]; intros H; [reflexivity|]. cbn [filter].
  rewrite (H x (or_introl eq_refl)). apply IH. intros r Hr. apply H. now right.
Qed.

(** X18. Over a table whose prices are all positive, and when the query
    goes through, the total of the repository's Aggregate is not negative,
    is at least the price of every matching row, and is zero exactly when
    no row matches. *)
Theorem Aggregate_total_is_zero_exactly_when_no_row_matches :
  forall start end_ userID serviceName db,
    ready 1 db ->
    Forall (fun r => 0 < Price r) (gorm.rows db) ->
    exists total,
      repository.Aggregate start end_ userID serviceName db = (Ok total, advance db)
      /\ 0 <= total
      /\ (total = 0 <->
          forall r, In r (gorm.rows db) -> overlaps start end_ userID serviceName r = false)
      /\ (forall r, In r (gorm.rows db) ->
                    overlaps start end_ userID serviceName r = true ->
                    Price r <= total).
Proof.
  intros start end_ userID serviceName db Hready Hall.
  rewrite repository_Aggregate_eq, send_ready by assumption.
  eexists. split; [reflexivity|].
  set (p := overlaps start end_ userID serviceName).
  assert (Hf : Forall (fun r => 0 < Price r) (filter p (gorm.rows db))).
  { rewrite Forall_forall in *. intros r Hr. apply filter_In in Hr. now apply Hall. }
  split; [now apply totalPrice_nonneg|]. split.
  - split.
    + intros H0 r Hr. destruct (p r) eqn:Hp; [|reflexivity].
      assert (Hin : In r (filter p (gorm.rows db))) by (apply filter_In; now split).
      pose proof (totalPrice_member _ _ Hf Hin).
      rewrite Forall_forall in Hall. specialize (Hall r Hr). cbn beta in Hall. lia.
    + intros Hnone. rewrite (filter_none p (gorm.rows db) Hnone). reflexivity.
  - intros r Hr Hp. apply totalPrice_member; [assumption|].
    apply filter_In. now split.
Qed.

(** X19. Over a table whose prices are all positive, the total of the
    repository's Aggregate does not decrease when the window is widened and
    when a filter is dropped. *)
Theorem Aggregate_grows_with_the_window_and_without_filters :
  forall start end_ start' end_' userID serviceName userID' serviceName' db total total',
    Forall (fun r => 0 < Price r) (gorm.rows db) ->
    start' <= start ->
    end_ <= end_' ->
    userID' = None \/ userID' = userID ->
    serviceName' = None \/ serviceName' = serviceName ->
    fst (repository.Aggregate start end_ userID serviceName db) = Ok total ->
    fst (repository.Aggregate start' end_' userID' serviceName' db) = Ok total' ->
    total <= total'.
Proof.
  intros start end_ start' end_' userID serviceName userID' serviceName' db total total'
         Hall Hs He Hu Hn.
  rewrite !repository_Aggregate_eq.
  destruct (send_cases db) as [H|[msg H]]; rewrite H; cbn [fst]; [|intros [=]].
  intros [= <-] [= <-].
  apply totalPrice_filter_le; [assumption|].
  intros r _. unfold overlaps.
  rewrite !andb_true_iff, !Z.leb_le. intros [[[H1 H2] H3] H4].
  repeat split.
  - lia.
  - destruct (EndDate r); [|reflexivity]. apply Z.leb_le. apply Z.leb_le in H2. lia.
  - destruct Hu as [->| ->]; [reflexivity|assumption].
  - destruct Hn as [->| ->]; [reflexivity|assumption].
Qed.

Lemma filter_filter {A} (p q : A -> bool) l :
  filter p (filter q l) = filter (fun x => q x && p x) l.
Proof.
  induction l as [|x l IH]; [reflexivity|]. cbn [filter].
  destruct (q x); cbn [filter andb]; [destruct (p x)|]; now rewrite IH.
Qed.

(** X20. For a user that is not the nil identifier and a service name that
    is not empty, the repository's Aggregate with both filters sums the
    prices of the rows that List returns for them and that are in the
    window. *)
Theorem Aggregate_sums_over_what_List_returns :
  forall start end_ userID serviceName db,
    ready 1 db ->
    userID <> uuid.Nil ->
    serviceName <> "" ->
    exists subs,
      fst (repository.List userID serviceName db) = Ok subs
      /\ fst (repository.Aggregate start end_ (Some userID) (Some serviceName) db)
         = Ok (totalPrice (filter (overlaps start end_ None None) subs)).
Proof.
  intros start end_ userID serviceName db Hready Hu Hn.
  exists (filter (listed userID serviceName) (gorm.rows db)).
  rewrite repository_Aggregate_eq, send_ready by assumption. cbn [fst]. split.
  - unfold repository.List, gorm.Find, bind. rewrite send_ready by assumption.
    cbn [fst advance gorm.rows]. now rewrite (selected_listed userID serviceName).
  - do 2 f_equal. rewrite filter_filter. apply filter_ext. intros r.
    unfold overlaps, listed.
    apply N.eqb_neq in Hu. apply String.eqb_neq in Hn.
    unfold uuid.eqb at 2. rewrite Hu, Hn. cbn [orb].
    rewrite !andb_true_r.
    destruct (StartDate r <=? end_), (match EndDate r with Some e => start <=? e | None => true end),
      (uuid.eqb (UserID r) userID), (ServiceName r =? serviceName)%string; reflexivity.
Qed.

Lemma patched_fields old serviceName price startDateStr endDateStr sub :
  patched old serviceName price startDateStr endDateStr = Ok sub ->
  (serviceName <> "" -> ServiceName sub = serviceName)
  /\ (0 < price -> Price sub = price)
  /\ (startDateStr <> "" -> service.parseMonthYear startDateStr = Ok (StartDate sub))
  /\ (endDateStr <> "" ->
      exists endDate,
        service.parseMonthYear endDateStr = Ok endDate
        /\ EndDate sub = Some endDate
        /\ StartDate sub <= endDate).
Proof.
  unfold patched, withServiceName, withPrice, withStartDate, withEndDate.
  destruct (String.eqb_spec serviceName "") as [Hn|Hn],
           (Z.ltb_spec 0 price) as [Hp|Hp],
           (String.eqb_spec startDateStr "") as [Hs|Hs],
           (String.eqb_spec endDateStr "") as [He|He];
    cbn [negb];
    repeat match goal with
           | |- context [service.parseMonthYear ?s] =>
               let E := fresh "E" in destruct (service.parseMonthYear s) eqn:E
           | |- context [time.Before ?a ?b] =>
               let B := fresh "B" in
               destruct (time.Before a b) eqn:B;
               [|unfold time.Before in B; apply Z.ltb_ge in B]
           end;
    cbn [StartDate]; intros [= <-]; cbn [ServiceName Price StartDate EndDate];
    repeat split; intros;
    solve [reflexivity | contradiction | lia | eauto].
Qed.

(** X8. The subscription a successful Update returns is the one stored
    under the identifier afterwards; its service name is the one supplied
    when that is not empty, its price the one supplied when that is
    positive, its start date the parsed start-date text when that is not
    empty, and its end date the parsed end-date text, not earlier than its
    start date, when that is not empty. *)
Theorem Update_writes_the_supplied_fields :
  forall id serviceName price startDateStr endDateStr db sub db',
    service.Update id serviceName price startDateStr endDateStr db = (Ok sub, db') ->
    stored id db' = Some sub
    /\ (serviceName <> "" -> ServiceName sub = serviceName)
    /\ (0 < price -> Price sub = price)
    /\ (startDateStr <> "" -> service.parseMonthYear startDateStr = Ok (StartDate sub))
    /\ (endDateStr <> "" ->
        exists endDate,
          service.parseMonthYear endDateStr = Ok endDate
          /\ EndDate sub = Some endDate
          /\ StartDate sub <= endDate).
Proof.
  intros id serviceName price startDateStr endDateStr db sub db'.
  rewrite service_Update_eq, GetByID_eq.
  destruct (send_cases db) as [H|[msg H]]; rewrite H; [|intros [=]].
  destruct (stored id db) as [old|] eqn:Hold; [|intros [=]].
  destruct (patched old serviceName price startDateStr endDateStr) as [sub'|e] eqn:Hp;
    [|intros [=]].
  rewrite Update_eq.
  destruct (send_cases (advance db)) as [H2|[msg H2]]; rewrite H2; intros [= <- <-].
  split; [|now apply (patched_fields old)].
  unfold stored. cbn [gorm.withRows gorm.rows].
  rewrite <- (stored_ID _ _ _ Hold), <- (patched_ID _ _ _ _ _ _ Hp).
  apply find_saved.
Qed.

Lemma Parse_01_2006_Err value e :
  Parse_01_2006 value = Err e -> e = ParseError "01-2006" value.
Proof.
  unfold Parse_01_2006; cbv zeta.
  repeat match goal with
         | |- context [match ?s with EmptyString => _ | String _ _ => _ end] =>
             destruct s
         end;
    repeat match goal with
           | |- context [if ?c then _ else _] => destruct c
           end;
    intros [= <-]; reflexivity.
Qed.

Lemma checkedDates_Err startDateStr endDateStr e :
  checkedDates startDateStr endDateStr = Err e ->
  e = wrapError "invalid start_date" (ParseError "01-2006" startDateStr)
  \/ e = wrapError "invalid end_date" (ParseError "01-2006" endDateStr)
  \/ e = service.ErrInvalidDateRange.
Proof.
  unfold checkedDates, service.parseMonthYear.
  destruct (Parse_01_2006 startDateStr) as [sd|e1] eqn:E1.
  - destruct (negb (endDateStr =? "")%string); [|intros [=]].
    destruct (Parse_01_2006 endDateStr) as [ed|e2] eqn:E2.
    + destruct (time.Before ed sd); intros [= <-]. auto.
    + apply Parse_01_2006_Err in E2. intros [= <-]. subst. auto.
  - apply Parse_01_2006_Err in E1. intros [= <-]. subst. auto.
Qed.

Lemma patched_Err old serviceName price startDateStr endDateStr e :
  patched old serviceName price startDateStr endDateStr = Err e ->
  e = wrapError "invalid start_date" (ParseError "01-2006" startDateStr)
  \/ e = wrapError "invalid end_date" (ParseError "01-2006" endDateStr)
  \/ e = service.ErrInvalidDateRange.
Proof.
  unfold patched, service.parseMonthYear.
  destruct (negb (startDateStr =? "")%string).
  - destruct (Parse_01_2006 startDateStr) as [sd|e1] eqn:E1.
    + destruct (negb (endDateStr =? "")%string); [|intros [=]].
      destruct (Parse_01_2006 endDateStr) as [ed|e2] eqn:E2.
      * destruct (time.Before ed _); intros [= <-]. auto.
      * apply Parse_01_2006_Err in E2. intros [= <-]. subst. auto.
    + apply Parse_01_2006_Err in E1. intros [= <-]. subst. auto.
  - destruct (negb (endDateStr =? "")%string); [|intros [=]].
    destruct (Parse_01_2006 endDateStr) as [ed|e2] eqn:E2.
    + destruct (time.Before ed _); intros [= <-]. auto.
    + apply Parse_01_2006_Err in E2. intros [= <-]. subst. auto.
Qed.

(** X13. The errors of each operation: Create fails with the wrapped parse
    error of its start date or of its end date, with the error of the date
    range or with an error of the driver; Update with these or with
    gorm.ErrRecordNotFound; GetByID with gorm.ErrRecordNotFound or an error
    of the driver; Delete and List with an error of the driver only;
    Aggregate with a wrapped parse error or the wrapped error of the
    query. *)
Theorem operations_fail_with_their_own_errors_only :
  forall op db e,
    failure op db = Some e ->
    match op with
    | OpCreate _ _ _ _ startDateStr endDateStr =>
        e = wrapError "invalid start_date" (ParseError "01-2006" startDateStr)
        \/ e = wrapError "invalid end_date" (ParseError "01-2006" endDateStr)
        \/ e = service.ErrInvalidDateRange
        \/ exists msg, e = driverError msg
    | OpUpdate _ _ _ startDateStr endDateStr =>
        e = ErrRecordNotFound
        \/ e = wrapError "invalid start_date" (ParseError "01-2006" startDateStr)
        \/ e = wrapError "invalid end_date" (ParseError "01-2006" endDateStr)
        \/ e = service.ErrInvalidDateRange
        \/ exists msg, e = driverError msg
    | OpGetByID _ => e = ErrRecordNotFound \/ exists msg, e = driverError msg
    | OpDelete _ | OpList _ _ => exists msg, e = driverError msg
    | OpAggregate startDateStr endDateStr _ _ =>
        e = wrapError "invalid start_date" (ParseError "01-2006" startDateStr)
        \/ e = wrapError "invalid end_date" (ParseError "01-2006" endDateStr)
        \/ exists msg, e = wrapError "aggregation query failed" (driverError msg)
    end.
Proof.
  intros op db e.
  destruct op as [subID serviceName price userID startDateStr endDateStr
                 | id
                 | id serviceName price startDateStr endDateStr
                 | id
                 | userID serviceName
                 | startDateStr endDateStr userID serviceName];
    unfold failure.
  - rewrite service_Create_eq.
    destruct (checkedDates startDateStr endDateStr) as [[startDate endDate]|e0] eqn:Hc.
    + cbv zeta. rewrite Create_eq.
      destruct (send_cases db) as [H|[msg H]]; rewrite H;
        [destruct (existsb _ _)|]; cbn [fst errorOf]; intros [= <-]; eauto 6.
    + cbn [fst errorOf]. intros [= <-].
      destruct (checkedDates_Err _ _ _ Hc) as [->|[->| ->]]; auto.
  - rewrite service_GetByID_eq, GetByID_eq.
    destruct (send_cases db) as [H|[msg H]]; rewrite H;
      [destruct (stored id db)|]; cbn [fst errorOf]; intros [= <-]; eauto.
  - rewrite service_Update_eq, GetByID_eq.
    destruct (send_cases db) as [H|[msg H]]; rewrite H;
      [|cbn [fst errorOf]; intros [= <-]; eauto 7].
    destruct (stored id db) as [old|]; [|cbn [fst errorOf]; intros [= <-]; auto].
    destruct (patched old serviceName price startDateStr endDateStr) as [sub'|e0] eqn:Hp.
    + rewrite Update_eq.
      destruct (send_cases (advance db)) as [H2|[msg H2]]; rewrite H2;
        cbn [fst errorOf]; intros [= <-]; eauto 7.
    + cbn [fst errorOf]. intros [= <-].
      destruct (patched_Err _ _ _ _ _ _ Hp) as [->|[->| ->]]; auto.
  - rewrite service_Delete_eq.
    destruct (send_cases db) as [H|[msg H]]; rewrite H;
      cbn [fst errorOf]; intros [= <-]; eauto.
  - rewrite service_List_eq.
    destruct (send_cases db) as [H|[msg H]]; rewrite H;
      cbn [fst errorOf]; intros [= <-]; eauto.
  - rewrite service_Aggregate_eq. unfold service.parseMonthYear.
    destruct (Parse_01_2006 startDateStr) as [sd|e1] eqn:E1.
    + destruct (Parse_01_2006 endDateStr) as [ed|e2] eqn:E2.
      * rewrite repository_Aggregate_eq.
        destruct (send_cases db) as [H|[msg H]]; rewrite H;
          cbn [fst errorOf]; intros [= <-]; eauto.
      * apply Parse_01_2006_Err in E2. cbn [fst errorOf]. intros [= <-]. subst. auto.
    + apply Parse_01_2006_Err in E1. cbn [fst errorOf]. intros [= <-]. subst. auto.
Qed.

End MoreFacts.

(** ** The further properties at sample requests *)

Section MoreInstances.

Import handler time.

(** X1 at "07-2025". *)
Lemma parseMonthYear_of_July_2025 :
  String.length "07-2025" = 7%nat
  /\ exists y m,
      0 <= y <= 9999 /\ 1 <= m <= 12
      /\ Date 2025 7 1 0 0 0 = Date y m 1 0 0 0
      /\ Year (Date 2025 7 1 0 0 0) = y /\ Month (Date 2025 7 1 0 0 0) = m.
Proof.
  apply (parseMonthYear_gives_the_first_instant_of_the_month_it_reads
           "07-2025" (Date 2025 7 1 0 0 0)).
  reflexivity.
Defined.

(** X2 at "07-2025". *)
Lemma parseMonthYear_of_July_2025_twice :
  service.parseMonthYear "07-2025" = Ok (Date 2025 7 1 0 0 0)
  /\ "07-2025" = "07-2025".
Proof.
  split; [reflexivity|].
  apply (parseMonthYear_reads_different_texts_as_different_months
           "07-2025" "07-2025" (Date 2025 7 1 0 0 0)); reflexivity.
Defined.

(** X3 at a Create that draws the identifier of Netflix. *)
Lemma Create_with_the_identifier_of_netflix :
  stored 1%N (snd (service.Create 1%N "Okko" 300 sample.user "01-2026" "" sample.twoRows))
  = Some sample.netflix
  /\ (1%N = 1%N ->
      exists e,
        fst (service.Create 1%N "Okko" 300 sample.user "01-2026" "" sample.twoRows)
        = Err e).
Proof.
  apply (Create_keeps_the_stored_subscriptions
           1%N "Okko" 300 sample.user "01-2026" "" sample.twoRows 1%N sample.netflix).
  reflexivity.
Defined.

(** X4 at the Create of Yandex Plus after the two rows. *)
Lemma GetByID_after_Create_of_yandex :
  ID cases.yandex = 4%N
  /\ In cases.yandex
        (gorm.rows (snd (app.serve 4%N (handler.Create (Ok cases.createYandex))
                           sample.twoRows)))
  /\ fst (app.serve 9%N (handler.GetByID uuid.Parse cases.yandexID)
            (snd (app.serve 4%N (handler.Create (Ok cases.createYandex)) sample.twoRows)))
     = JSON http.StatusOK (one cases.yandex).
Proof.
  apply (GetByID_serves_what_Create_answered
           uuid.Parse 4%N 9%N cases.createYandex sample.twoRows cases.yandex
           (snd (app.serve 4%N (handler.Create (Ok cases.createYandex)) sample.twoRows))
           cases.yandexID); reflexivity.
Defined.

(** X5 at the identifier of Netflix. *)
Lemma GetByID_of_netflix :
  gorm.rows (snd (app.serve 9%N (handler.GetByID uuid.Parse cases.netflixID) sample.twoRows))
  = gorm.rows sample.twoRows
  /\ (ready 1 sample.twoRows ->
      fst (app.serve 9%N (handler.GetByID uuid.Parse cases.netflixID) sample.twoRows)
      = match stored 1%N sample.twoRows with
        | Some r => JSON http.StatusOK (one r)
        | None => JSON http.StatusNotFound (H_error "subscription not found")
        end)
  /\ (forall msg rest,
         gorm.driver sample.twoRows = Some msg :: rest ->
         fst (app.serve 9%N (handler.GetByID uuid.Parse cases.netflixID) sample.twoRows)
         = JSON http.StatusInternalServerError (H_error "failed to get subscription")).
Proof.
  apply (GetByID_answers_the_stored_row_or_404
           uuid.Parse 9%N cases.netflixID 1%N sample.twoRows).
  reflexivity.
Defined.

(** X6 at an identifier that names no row. *)
Lemma Update_of_absent_id :
  service.Update (fst (uuid.Parse sample.absentID))
    (update_ServiceName cases.updatePrice) (update_Price cases.updatePrice)
    (update_StartDate cases.updatePrice) (update_EndDate cases.updatePrice) sample.twoRows
  = (Err ErrRecordNotFound, advance sample.twoRows)
  /\ (uuid.Parse sample.absentID = (fst (uuid.Parse sample.absentID), None) ->
      app.serve 9%N (handler.Update uuid.Parse sample.absentID (Ok cases.updatePrice))
        sample.twoRows
      = (JSON http.StatusBadRequest (H_errorOf ErrRecordNotFound), advance sample.twoRows)).
Proof.
  apply (Update_of_absent_id_stores_nothing
           uuid.Parse 9%N sample.absentID (fst (uuid.Parse sample.absentID))
           cases.updatePrice sample.twoRows); reflexivity.
Defined.

(** X8 at an Update of the price and the end of Netflix. *)
Lemma Update_of_netflix_price_and_end :
  stored 1%N (snd (service.Update 1%N "" 1200 "" "07-2026" sample.twoRows))
  = Some (withEndDate (withPrice sample.netflix 1200) (Some (Date 2026 7 1 0 0 0)))
  /\ ("" <> "" ->
      ServiceName (withEndDate (withPrice sample.netflix 1200) (Some (Date 2026 7 1 0 0 0)))
      = "")
  /\ (0 < 1200 ->
      Price (withEndDate (withPrice sample.netflix 1200) (Some (Date 2026 7 1 0 0 0)))
      = 1200)
  /\ ("" <> "" ->
      service.parseMonthYear ""
      = Ok (StartDate (withEndDate (withPrice sample.netflix 1200)
                         (Some (Date 2026 7 1 0 0 0)))))
  /\ ("07-2026" <> "" ->
      exists endDate,
        service.parseMonthYear "07-2026" = Ok endDate
        /\ EndDate (withEndDate (withPrice sample.netflix 1200) (Some (Date 2026 7 1 0 0 0)))
           = Some endDate
        /\ StartDate (withEndDate (withPrice sample.netflix 1200)
                        (Some (Date 2026 7 1 0 0 0))) <= endDate).
Proof.
  apply (Update_writes_the_supplied_fields
           1%N "" 1200 "" "07-2026" sample.twoRows
           (withEndDate (withPrice sample.netflix 1200) (Some (Date 2026 7 1 0 0 0)))
           (snd (service.Update 1%N "" 1200 "" "07-2026" sample.twoRows))).
  reflexivity.
Defined.

(** X9 at the Delete of Netflix. *)
Lemma Delete_of_netflix :
  fst (service.Delete 1%N sample.twoRows) = Ok tt
  /\ stored 1%N (snd (service.Delete 1%N sample.twoRows)) = None
  /\ (forall id', id' <> 1%N ->
                  stored id' (snd (service.Delete 1%N sample.twoRows))
                  = stored id' sample.twoRows)
  /\ (ready 2 sample.twoRows ->
      fst (service.GetByID 1%N (snd (service.Delete 1%N sample.twoRows)))
      = Err ErrRecordNotFound).
Proof.
  apply (Delete_removes_the_row_and_no_other 1%N sample.twoRows). reflexivity.
Defined.

(** X11 at the subscriptions of the first user among the three rows. *)
Lemma List_of_the_first_user :
  exists subs,
    service.List sample.user "" cases.threeRows = (Ok subs, advance cases.threeRows)
    /\ (forall r,
           In r subs <->
           In r (gorm.rows cases.threeRows)
           /\ (sample.user = uuid.Nil \/ UserID r = sample.user)
           /\ ("" = "" \/ ServiceName r = ""))
    /\ (sample.user = uuid.Nil -> "" = "" -> subs = gorm.rows cases.threeRows)
    /\ subs = filter (listed sample.user "") (gorm.rows cases.threeRows).
Proof.
  apply (List_returns_the_rows_that_pass_the_filters sample.user "" cases.threeRows).
  reflexivity.
Defined.

(** X12 at a Create whose end is before its start. *)
Lemma rows_after_a_refused_Create :
  gorm.rows (after (OpCreate 5%N "Okko" 300 sample.user "07-2025" "06-2025") sample.twoRows)
  = gorm.rows sample.twoRows.
Proof.
  apply (failed_operation_and_read_change_no_row
           (OpCreate 5%N "Okko" 300 sample.user "07-2025" "06-2025") sample.twoRows).
  left. reflexivity.
Defined.

(** X13 at a GetByID while the driver is down. *)
Lemma error_of_GetByID_when_the_driver_is_down :
  driverError "connection refused" = ErrRecordNotFound
  \/ exists msg, driverError "connection refused" = driverError msg.
Proof.
  apply (operations_fail_with_their_own_errors_only
           (OpGetByID 1%N) cases.downRows (driverError "connection refused")).
  reflexivity.
Defined.

(** X14 at an Update with the price zero. *)
Lemma prices_after_Update_with_price_zero :
  Forall (fun r => 0 < Price r)
         (gorm.rows (after (OpUpdate 1%N "Netflix HD" 0 "" "") sample.twoRows)).
Proof.
  apply (prices_stay_positive (OpUpdate 1%N "Netflix HD" 0 "" "") sample.twoRows).
  - exact I.
  - repeat constructor.
Defined.

(** X15 at an Update of the start of Netflix. *)
Lemma dates_after_Update_of_netflix :
  Forall monthAligned
         (gorm.rows (after (OpUpdate 1%N "" 0 "08-2025" "10-2025") sample.twoRows))
  /\ (forall sub,
         written (OpUpdate 1%N "" 0 "08-2025" "10-2025") sample.twoRows = Some sub ->
         monthAligned sub).
Proof.
  apply (dates_stay_first_of_month (OpUpdate 1%N "" 0 "08-2025" "10-2025") sample.twoRows).
  constructor; [|constructor; [|constructor]].
  - split; [exists 2025, 7|exists 2025, 10]; split; reflexivity || lia.
  - split; [exists 2025, 9|exact I]; split; reflexivity || lia.
Defined.

(** X16 at a window that ends in December. *)
Lemma Aggregate_window_to_December :
  service.Aggregate "07-2025" "12-2025" None None sample.twoRows
  = repository.Aggregate
      (Date 2025 7 1 0 0 0)
      (Date (Year (Date 2025 12 1 0 0 0)) (Month (Date 2025 12 1 0 0 0) + 1) 1 0 0 0 - 1)
      None None sample.twoRows
  /\ (Month (Date 2025 12 1 0 0 0) = 12 ->
      Date (Year (Date 2025 12 1 0 0 0)) (Month (Date 2025 12 1 0 0 0) + 1) 1 0 0 0
      = Date (Year (Date 2025 12 1 0 0 0) + 1) 1 1 0 0 0)
  /\ Date 2025 12 1 0 0 0
     < Date (Year (Date 2025 12 1 0 0 0)) (Month (Date 2025 12 1 0 0 0) + 1) 1 0 0 0.
Proof.
  apply (Aggregate_window_ends_the_second_before_the_next_month
           "07-2025" "12-2025" (Date 2025 7 1 0 0 0) (Date 2025 12 1 0 0 0)
           None None sample.twoRows); reflexivity.
Defined.

(** X17 at the months July to August 2025 over the three rows. *)
Lemma Aggregate_of_July_and_August :
  fst (service.Aggregate "07-2025" "08-2025" None None cases.threeRows)
  = Ok (totalPrice
          (filter (fun r => monthsOverlap (Date 2025 7 1 0 0 0) (Date 2025 8 1 0 0 0) r
                            && passes None None r)
                  (gorm.rows cases.threeRows))).
Proof.
  apply (Aggregate_counts_the_subscriptions_of_the_months
           "07-2025" "08-2025" (Date 2025 7 1 0 0 0) (Date 2025 8 1 0 0 0)
           None None cases.threeRows); try reflexivity.
  constructor; [|constructor; [|constructor; [|constructor]]].
  - split; [exists 2025, 7|exists 2025, 10]; split; reflexivity || lia.
  - split; [exists 2025, 9|exact I]; split; reflexivity || lia.
  - split; [exists 2025, 1|exists 2025, 6]; split; reflexivity || lia.
Defined.

(** X18 at a window before every subscription. *)
Lemma Aggregate_of_a_window_before_all :
  exists total,
    repository.Aggregate (Date 2024 1 1 0 0 0) (Date 2024 7 0 23 59 59) None None
      sample.twoRows
    = (Ok total, advance sample.twoRows)
    /\ 0 <= total
    /\ (total = 0 <->
        forall r, In r (gorm.rows sample.twoRows) ->
                  overlaps (Date 2024 1 1 0 0 0) (Date 2024 7 0 23 59 59) None None r = false)
    /\ (forall r, In r (gorm.rows sample.twoRows) ->
                  overlaps (Date 2024 1 1 0 0 0) (Date 2024 7 0 23 59 59) None None r = true ->
                  Price r <= total).
Proof.
  apply (Aggregate_total_is_zero_exactly_when_no_row_matches
           (Date 2024 1 1 0 0 0) (Date 2024 7 0 23 59 59) None None sample.twoRows).
  - reflexivity.
  - repeat constructor.
Defined.

(** X19 at September against July to October, with and without the filter
    on the service name. *)
Lemma Aggregate_of_a_wider_window :
  fst (repository.Aggregate (Date 2025 9 1 0 0 0) (Date 2025 10 0 23 59 59)
         None (Some "Netflix") sample.twoRows) = Ok 1000
  /\ fst (repository.Aggregate (Date 2025 7 1 0 0 0) (Date 2025 11 0 23 59 59)
            None None sample.twoRows) = Ok 1500
  /\ 1000 <= 1500.
Proof.
  split; [reflexivity|]. split; [reflexivity|].
  apply (Aggregate_grows_with_the_window_and_without_filters
           (Date 2025 9 1 0 0 0) (Date 2025 10 0 23 59 59)
           (Date 2025 7 1 0 0 0) (Date 2025 11 0 23 59 59)
           None (Some "Netflix") None None sample.twoRows 1000 1500).
  - repeat constructor.
  - vm_compute. intros H; discriminate H.
  - vm_compute. intros H; discriminate H.
  - left. reflexivity.
  - left. reflexivity.
  - reflexivity.
  - reflexivity.
Defined.

(** X20 at the Netflix of the first user. *)
Lemma Aggregate_over_the_List_of_netflix :
  exists subs,
    fst (repository.List sample.user "Netflix" cases.threeRows) = Ok subs
    /\ fst (repository.Aggregate (Date 2025 7 1 0 0 0) (Date 2025 8 0 23 59 59)
              (Some sample.user) (Some "Netflix") cases.threeRows)
       = Ok (totalPrice
               (filter (overlaps (Date 2025 7 1 0 0 0) (Date 2025 8 0 23 59 59) None None)
                       subs)).
Proof.
  apply (Aggregate_sums_over_what_List_returns
           (Date 2025 7 1 0 0 0) (Date 2025 8 0 23 59 59)
           sample.user "Netflix" cases.threeRows).
  - reflexivity.
  - intros H; discriminate H.
  - intros H; discriminate H.
Defined.

End MoreInstances.
